(** * Google Play reviews MCP server: request handlers over the review store

    A shallow embedding of [src/index.ts] (the request handlers of
    [GooglePlayReviewsMCPServer]) and [src/types.ts] (the data model).

    The handlers call two repository classes, [ReviewsRepository] and
    [AppsRepository], whose sources are not in the source tree at hand.  The
    handlers are therefore written against a repository _interface_
    (section [Handlers]); a model of the repositories that follows the
    specification is given separately (module [SpecRepo]).

    Conventions.
    - JavaScript strings are [string]s: sequences of code units below 256,
      the Latin-1 range of UTF-16.  On that range [toLowerCase] maps the
      capital letters A to Z, U+00C0 to U+00D6 and U+00D8 to U+00DE to the
      letter 32 code units further on, and nothing else.
    - JavaScript numbers that the handlers receive are integers ([Z]).
    - The arguments whose type a handler tests with [typeof] are arbitrary
      values ([Js.value]); the other fields of a request have the types of
      [ReviewFilter] and of the tools' input schemas, each of them optional.
    - The handlers are taken at the point where the server has routed the
      request: a resource handler receives the decoded segments of the URI.
    - [async]/[await] code runs to completion one request at a time, so a
      handler is a function from the state before the request to an outcome
      and the state after it; a thrown error is an [Err] outcome.
    - A handler returns the object it would pass to [JSON.stringify]. *)

From Stdlib Require Import ZArith List String Ascii Bool Lia QArith.
From Stdlib Require Import DecimalString Permutation.
Import ListNotations.

Local Open Scope string_scope.
Local Open Scope Z_scope.

(* ------------------------------------------------------------------ *)
(** ** JavaScript primitives used by the handlers *)

Module Js.

(** A request argument as it arrives in [args] (typed [any]); [Obj] stands
    for any object or array. *)
Inductive value : Type :=
| Undefined
| Null
| Bool (b : bool)
| Num (n : Z)
| Str (s : string)
| Obj.

(** JavaScript truthiness. *)
Definition truthy (v : value) : bool :=
  match v with
  | Undefined | Null => false
  | Bool b => b
  | Num n => negb (n =? 0)
  | Str s => negb (s =? "")%string
  | Obj => true
  end.

(** [v === s] for a string [s]. *)
Definition strictEqStr (s : string) (v : value) : bool :=
  match v with
  | Str t => (s =? t)%string
  | _ => false
  end.

(** [x || d] for an optional number [x]: [undefined] and [0] are falsy. *)
Definition orDefault (x : option Z) (d : Z) : Z :=
  match x with
  | Some v => if v =? 0 then d else v
  | None => d
  end.

(** The lower-case mapping of one code unit: the capitals of Basic Latin
    (65 to 90) and of the Latin-1 Supplement (192 to 214 and 216 to 222;
    215 is the multiplication sign) move up by 32. *)
Definition lowerChar (c : ascii) : ascii :=
  let n := nat_of_ascii c in
  if (((65 <=? n) && (n <=? 90))
      || ((192 <=? n) && (n <=? 214))
      || ((216 <=? n) && (n <=? 222)))%nat
  then ascii_of_nat (n + 32) else c.

(** [String.prototype.toLowerCase]. *)
Fixpoint toLowerCase (s : string) : string :=
  match s with
  | EmptyString => EmptyString
  | String c s' => String (lowerChar c) (toLowerCase s')
  end.

Fixpoint startsWith (q s : string) : bool :=
  match q, s with
  | EmptyString, _ => true
  | String _ _, EmptyString => false
  | String a q', String b s' => if Ascii.eqb a b then startsWith q' s' else false
  end.

(** [s.includes(q)]. *)
Fixpoint includes (s q : string) : bool :=
  if startsWith q s then true
  else match s with
       | EmptyString => false
       | String _ s' => includes s' q
       end.

(** [Array.prototype.slice(start, end)], with its treatment of negative
    and oversized indices. *)
Definition slice {A} (l : list A) (start stop : Z) : list A :=
  let len := Z.of_nat (List.length l) in
  let k := if start <? 0 then Z.max (len + start) 0 else Z.min start len in
  let fin := if stop <? 0 then Z.max (len + stop) 0 else Z.min stop len in
  firstn (Z.to_nat (Z.max (fin - k) 0)) (skipn (Z.to_nat k) l).

(** Template-literal rendering of a non-negative integer. *)
Definition showNat (n : nat) : string :=
  NilZero.string_of_uint (Nat.to_uint n).

End Js.

(* ------------------------------------------------------------------ *)
(** ** Data model ([src/types.ts]) *)

Record DeviceMetadata : Type := {
  device : string;
  os : string;
  osVersion : string
}.

Record ReplyData : Type := {
  replyId : string;
  replyText : string;
  replyDate : string;
  lastEditDate : option string
}.

Inductive Status : Type := new | flagged | responded | resolved.

Record InternalMetadata : Type := {
  status : Status;
  tags : list string;
  assignedTo : option string;
  notes : option string
}.

Module Review.
Record t : Type := {
  id : string;
  appPackage : string;
  userName : string;
  userImage : option string;
  rating : Z;
  title : option string;
  text : string;
  date : string;
  lastUpdateDate : string;
  language : string;
  country : string;
  appVersion : string;
  deviceMetadata : DeviceMetadata;
  replyData : option ReplyData;
  internalMetadata : option InternalMetadata
}.
End Review.

Module ReviewFilter.
Record t : Type := {
  appPackage : option string;
  minRating : option Z;
  maxRating : option Z;
  startDate : option string;
  endDate : option string;
  languages : option (list string);
  countries : option (list string);
  appVersions : option (list string);
  minAppVersion : option string;
  deviceTypes : option (list string);
  osVersions : option (list string);
  minOsVersion : option string;
  hasReply : option bool;
  hasFreshReply : option bool;
  status : option (list Status);
  tags : option (list string);
  assignedTo : option (list string);
  limit : option Z;
  offset : option Z
}.

(** The empty object [{}]. *)
Definition empty : t :=
  {| appPackage := None; minRating := None; maxRating := None;
     startDate := None; endDate := None; languages := None;
     countries := None; appVersions := None; minAppVersion := None;
     deviceTypes := None; osVersions := None; minOsVersion := None;
     hasReply := None; hasFreshReply := None; status := None;
     tags := None; assignedTo := None; limit := None; offset := None |}.

Definition withAppPackage (p : option string) (f : t) : t :=
  {| appPackage := p; minRating := minRating f; maxRating := maxRating f;
     startDate := startDate f; endDate := endDate f;
     languages := languages f; countries := countries f;
     appVersions := appVersions f; minAppVersion := minAppVersion f;
     deviceTypes := deviceTypes f; osVersions := osVersions f;
     minOsVersion := minOsVersion f; hasReply := hasReply f;
     hasFreshReply := hasFreshReply f; status := status f;
     tags := tags f; assignedTo := assignedTo f;
     limit := limit f; offset := offset f |}.

(** [{ ...f, limit: l, offset: o }]. *)
Definition withPage (l o : option Z) (f : t) : t :=
  {| appPackage := appPackage f; minRating := minRating f;
     maxRating := maxRating f;
     startDate := startDate f; endDate := endDate f;
     languages := languages f; countries := countries f;
     appVersions := appVersions f; minAppVersion := minAppVersion f;
     deviceTypes := deviceTypes f; osVersions := osVersions f;
     minOsVersion := minOsVersion f; hasReply := hasReply f;
     hasFreshReply := hasFreshReply f; status := status f;
     tags := tags f; assignedTo := assignedTo f;
     limit := l; offset := o |}.
End ReviewFilter.

Record Developer : Type := {
  name : string;
  website : option string;
  email : option string
}.

Record AppMetadata : Type := {
  packageName : string;
  title : string;
  icon : option string;
  latestVersion : option string;
  description : option string;
  category : option string;
  developer : option Developer;
  updatedAt : option string
}.

Record Pagination : Type := {
  total : Z;
  limit : Z;
  offset : Z;
  hasMore : bool
}.

Record ReviewsResponse : Type := {
  reviews : list Review.t;
  pagination : Pagination
}.

Module ReplyResponse.
Record t : Type := {
  success : bool;
  replyId : string;
  timestamp : string
}.
End ReplyResponse.

(** The placeholder object of [handleStatsResource]; [averageRating] is a
    decimal fraction, kept exact as a rational. *)
Record GeneralStats : Type := {
  totalApps : Z;
  totalReviews : Z;
  averageRating : Q
}.

(** What [AppsRepository.getAppStats] yields for a known app. *)
Record AppStats : Type := {
  appTotalReviews : Z;
  appAverageRating : Q
}.

(** One element of a resource read's [contents]; [body] is the value that
    is serialised into [text]. *)
Record ResourceContents (A : Type) : Type := {
  uri : string;
  mimeType : string;
  body : A
}.
Arguments uri {A} _.
Arguments mimeType {A} _.
Arguments body {A} _.

(* ------------------------------------------------------------------ *)
(** ** Errors *)

(** The [ErrorCode]s of the protocol SDK that the handlers throw. *)
Inductive ErrorCode : Type :=
| InvalidParams
| InvalidRequest
| MethodNotFound
| InternalError.

(** The failure kinds of the core operations (specification, section 7). *)
Inductive ErrorKind : Type :=
| InvalidArgument
| NotFound
| StorageError
| InternalFailure.

Inductive Error : Type :=
| McpError (code : ErrorCode) (message : string)
| RepositoryError (kind : ErrorKind).

(** Malformed or out-of-range request parameters: the handlers report them
    as [InvalidParams], the core operations as [InvalidArgument]. *)
Definition isInvalidArgument (e : Error) : bool :=
  match e with
  | McpError InvalidParams _ => true
  | RepositoryError InvalidArgument => true
  | _ => false
  end.

(* ------------------------------------------------------------------ *)
(** ** The store and the monad of requests *)

(** The state held by the repository singletons: the review and app
    collections, together with what [addReply] draws from its environment
    (a supply of reply identifiers and the current time). *)
Record Store : Type := {
  allReviews : list Review.t;
  allApps : list AppMetadata;
  replySeq : nat;
  clock : string
}.

Inductive Outcome (A : Type) : Type :=
| Ok (a : A)
| Err (e : Error).
Arguments Ok {A} _.
Arguments Err {A} _.

Definition M (A : Type) : Type := Store -> Outcome A * Store.

Definition ret {A} (a : A) : M A := fun st => (Ok a, st).

Definition throw {A} (e : Error) : M A := fun st => (Err e, st).

Definition bind {A B} (c : M A) (k : A -> M B) : M B :=
  fun st =>
    match c st with
    | (Ok a, st') => k a st'
    | (Err e, st') => (Err e, st')
    end.

Declare Scope req_scope.
Delimit Scope req_scope with req.
Notation "x <- c ;; k" := (bind c (fun x => k))
  (at level 61, c at next level, right associativity) : req_scope.

(** The methods of [ReviewsRepository] that the handlers call. *)
Record ReviewsRepository : Type := {
  find : ReviewFilter.t -> M (list Review.t);
  countReviews : string -> M Z;
  findById : string -> M (option Review.t);
  addReply : string -> string -> M bool
}.

(** The methods of [AppsRepository] that the handlers call. *)
Record AppsRepository : Type := {
  findAll : M (list AppMetadata);
  getAppStats : string -> M (option AppStats)
}.

(* ------------------------------------------------------------------ *)
(** ** Tool arguments *)

Module GetReviewsArgs.
Record t : Type := {
  appPackage : Js.value;
  filter : option ReviewFilter.t
}.
End GetReviewsArgs.

Module PostReplyArgs.
Record t : Type := {
  reviewId : Js.value;
  replyText : Js.value
}.
End PostReplyArgs.

Module SearchReviewsArgs.
Record t : Type := {
  query : Js.value;
  appPackage : Js.value;
  filter : option ReviewFilter.t;
  limit : option Z;
  offset : option Z
}.
End SearchReviewsArgs.

(* ------------------------------------------------------------------ *)
(** ** The handlers of [GooglePlayReviewsMCPServer] *)

Section Handlers.

Variable reviewsRepository : ReviewsRepository.
Variable appsRepository : AppsRepository.

Local Open Scope req_scope.

(** [handleAppsResource] *)
Definition handleAppsResource : M (ResourceContents (list AppMetadata)) :=
  apps <- findAll appsRepository ;;
  ret {| uri := "googleplay://apps";
         mimeType := "application/json";
         body := apps |}.

(** [handleStatsResource] *)
Definition handleStatsResource : M (ResourceContents GeneralStats) :=
  let generalStats :=
    {| totalApps := 3; totalReviews := 8; averageRating := 34 # 10 |} in
  ret {| uri := "googleplay://stats";
         mimeType := "application/json";
         body := generalStats |}.

(** [handleAppReviewsResource] *)
Definition handleAppReviewsResource (appPackage : string)
  : M (ResourceContents (list Review.t)) :=
  reviews <- find reviewsRepository
               (ReviewFilter.withPage (Some 10) (Some 0) ReviewFilter.empty) ;;
  ret {| uri := "googleplay://reviews/" ++ appPackage;
         mimeType := "application/json";
         body := reviews |}.

(** [handleSpecificReviewResource] *)
Definition handleSpecificReviewResource (appPackage reviewId : string)
  : M (ResourceContents Review.t) :=
  review <- findById reviewsRepository reviewId ;;
  match review with
  | None =>
      throw (McpError InvalidRequest ("Review not found: " ++ reviewId))
  | Some r =>
      ret {| uri := "googleplay://reviews/" ++ appPackage ++ "/" ++ reviewId;
             mimeType := "application/json";
             body := r |}
  end.

(** [handleAppStatsResource] *)
Definition handleAppStatsResource (appPackage : string)
  : M (ResourceContents AppStats) :=
  stats <- getAppStats appsRepository appPackage ;;
  match stats with
  | None => throw (McpError InvalidRequest ("App not found: " ++ appPackage))
  | Some s =>
      ret {| uri := "googleplay://stats/" ++ appPackage;
             mimeType := "application/json";
             body := s |}
  end.

(** [{ appPackage: p, ...payload }]: the payload's own [appPackage], when
    it has one, replaces the one written before the spread. *)
Definition spreadOverAppPackage (p : string) (payload : option ReviewFilter.t)
  : ReviewFilter.t :=
  match payload with
  | None => ReviewFilter.withAppPackage (Some p) ReviewFilter.empty
  | Some f =>
      match ReviewFilter.appPackage f with
      | Some _ => f
      | None => ReviewFilter.withAppPackage (Some p) f
      end
  end.

(** [payload?.limit] and [payload?.offset]. *)
Definition payloadLimit (payload : option ReviewFilter.t) : option Z :=
  match payload with Some f => ReviewFilter.limit f | None => None end.

Definition payloadOffset (payload : option ReviewFilter.t) : option Z :=
  match payload with Some f => ReviewFilter.offset f | None => None end.

(** The [filter] object built by [handleGetReviews]. *)
Definition getReviewsFilter (p : string) (payload : option ReviewFilter.t)
  : ReviewFilter.t :=
  ReviewFilter.withPage
    (Some (Js.orDefault (payloadLimit payload) 20))
    (Some (Js.orDefault (payloadOffset payload) 0))
    (spreadOverAppPackage p payload).

(** [handleGetReviews] *)
Definition handleGetReviews (args : GetReviewsArgs.t) : M ReviewsResponse :=
  match GetReviewsArgs.appPackage args with
  | Js.Str p =>
      let filter := getReviewsFilter p (GetReviewsArgs.filter args) in
      reviews <- find reviewsRepository filter ;;
      total <- countReviews reviewsRepository p ;;
      let limit := Js.orDefault (ReviewFilter.limit filter) 20 in
      let offset := Js.orDefault (ReviewFilter.offset filter) 0 in
      ret {| reviews := reviews;
             pagination := {| total := total;
                              limit := limit;
                              offset := offset;
                              hasMore := offset + limit <? total |} |}
  | _ => throw (McpError InvalidParams "appPackage must be a string")
  end.

(** [handlePostReply] *)
Definition handlePostReply (args : PostReplyArgs.t) : M ReplyResponse.t :=
  match PostReplyArgs.reviewId args with
  | Js.Str reviewId =>
      match PostReplyArgs.replyText args with
      | Js.Str replyText =>
          if (350 <? String.length replyText)%nat then
            throw (McpError InvalidParams
                     ("replyText exceeds maximum length ("
                        ++ Js.showNat (String.length replyText) ++ "/350)"))
          else
            success <- addReply reviewsRepository reviewId replyText ;;
            if negb success then
              throw (McpError InvalidRequest ("Review not found: " ++ reviewId))
            else
              review <- findById reviewsRepository reviewId ;;
              match review with
              | Some r =>
                  match Review.replyData r with
                  | Some rd =>
                      ret {| ReplyResponse.success := true;
                             ReplyResponse.replyId := replyId rd;
                             ReplyResponse.timestamp := replyDate rd |}
                  | None =>
                      throw (McpError InternalError "Failed to retrieve reply data")
                  end
              | None =>
                  throw (McpError InternalError "Failed to retrieve reply data")
              end
      | _ => throw (McpError InvalidParams "replyText must be a string")
      end
  | _ => throw (McpError InvalidParams "reviewId must be a string")
  end.

(** The filter handed to [find] by [handleSearchReviews]:
    [{ ...(args.filter || {}), limit: 1000, offset: 0 }]. *)
Definition searchBatchFilter (args : SearchReviewsArgs.t) : ReviewFilter.t :=
  let filter :=
    ReviewFilter.withPage
      (Some (Js.orDefault (SearchReviewsArgs.limit args) 20))
      (Some (Js.orDefault (SearchReviewsArgs.offset args) 0))
      (match SearchReviewsArgs.filter args with
       | Some f => f
       | None => ReviewFilter.empty
       end) in
  ReviewFilter.withPage (Some 1000) (Some 0) filter.

Definition appPackageFilter (args : SearchReviewsArgs.t) (review : Review.t)
  : bool :=
  if Js.truthy (SearchReviewsArgs.appPackage args)
  then Js.strictEqStr (Review.appPackage review) (SearchReviewsArgs.appPackage args)
  else true.

(** [queryFilter], for the already lower-cased [query]. *)
Definition queryFilter (query : string) (review : Review.t) : bool :=
  Js.includes (Js.toLowerCase (Review.text review)) query
  || match Review.title review with
     | Some t => negb (t =? "")%string && Js.includes (Js.toLowerCase t) query
     | None => false
     end.

Definition combinedFilter (args : SearchReviewsArgs.t) (query : string)
           (review : Review.t) : bool :=
  appPackageFilter args review && queryFilter query review.

(** [handleSearchReviews] *)
Definition handleSearchReviews (args : SearchReviewsArgs.t) : M ReviewsResponse :=
  match SearchReviewsArgs.query args with
  | Js.Str q =>
      let query := Js.toLowerCase q in
      reviews <- find reviewsRepository (searchBatchFilter args) ;;
      let matchingReviews := List.filter (combinedFilter args query) reviews in
      let totalMatches := Z.of_nat (List.length matchingReviews) in
      let offset := Js.orDefault (SearchReviewsArgs.offset args) 0 in
      let limit := Js.orDefault (SearchReviewsArgs.limit args) 20 in
      let paginatedReviews := Js.slice matchingReviews offset (offset + limit) in
      ret {| reviews := paginatedReviews;
             pagination := {| total := totalMatches;
                              limit := limit;
                              offset := offset;
                              hasMore := offset + limit <? totalMatches |} |}
  | _ => throw (McpError InvalidParams "query must be a string")
  end.

End Handlers.

(* ------------------------------------------------------------------ *)
(** ** The repositories, as the specification describes them

    Modelled from the spec: [src/repositories/reviews-repository.ts] and
    [src/repositories/apps-repository.ts], which are not in the source tree
    at hand.  Every definition of this module follows sections 4.1 to 4.5
    of the specification. *)

Module SpecRepo.

(** Modelled from the spec: an absent filter field imposes no
    constraint (section 4.2, the identity of the conjunction). *)
Definition whenSet {A} (c : option A) (p : A -> bool) : bool :=
  match c with
  | Some a => p a
  | None => true
  end.

Definition inList (x : string) (l : list string) : bool :=
  existsb (String.eqb x) l.

(** Modelled from the spec: allow-list fields of the Filter Evaluator;
    membership in the supplied set, an empty or absent list being no
    constraint. *)
Definition allowed (l : option (list string)) (x : string) : bool :=
  match l with
  | None | Some [] => true
  | Some l' => inList x l'
  end.

Definition digitValue (c : ascii) : option N :=
  let n := nat_of_ascii c in
  if (andb (48 <=? n) (n <=? 57))%nat then Some (N.of_nat (n - 48)) else None.

(** The dot-separated numeric components of a version string; characters
    that are neither digits nor dots carry no value. *)
Fixpoint versionComponents (s : string) (cur : N) : list N :=
  match s with
  | EmptyString => [cur]
  | String c s' =>
      if Ascii.eqb c "."%char then cur :: versionComponents s' 0%N
      else match digitValue c with
           | Some d => versionComponents s' (10 * cur + d)%N
           | None => versionComponents s' cur
           end
  end.

Fixpoint compareComponents (a b : list N) : comparison :=
  match a, b with
  | x :: a', y :: b' =>
      match N.compare x y with
      | Eq => compareComponents a' b'
      | c => c
      end
  | _, _ => Eq
  end.

Definition padTo (n : nat) (a : list N) : list N :=
  a ++ repeat 0%N (n - List.length a).

(** Modelled from the spec: the version-aware comparison of
    [minAppVersion] and [minOsVersion], component by component
    (so that 2.10 is above 2.9); a missing component counts as 0. *)
Definition versionAtLeast (v bound : string) : bool :=
  let a := versionComponents v 0%N in
  let b := versionComponents bound 0%N in
  let n := Nat.max (List.length a) (List.length b) in
  match compareComponents (padTo n a) (padTo n b) with
  | Lt => false
  | _ => true
  end.

(** Modelled from the spec: [hasFreshReply]; a reply is fresh when its
    [lastEditDate], or else its [replyDate], is strictly newer than the
    review's [lastUpdateDate].  ISO 8601 timestamps of one format are
    ordered by their code units. *)
Definition freshReply (r : Review.t) : bool :=
  match Review.replyData r with
  | Some rd =>
      let d := match lastEditDate rd with
               | Some e => e
               | None => replyDate rd
               end in
      String.ltb (Review.lastUpdateDate r) d
  | None => false
  end.

Definition hasReplyData (r : Review.t) : bool :=
  match Review.replyData r with
  | Some _ => true
  | None => false
  end.

Definition statusEqb (a b : Status) : bool :=
  match a, b with
  | new, new | flagged, flagged | responded, responded
  | resolved, resolved => true
  | _, _ => false
  end.

(** Modelled from the spec: the [status], [tags] and [assignedTo]
    constraints; a review without [internalMetadata] fails each of them
    when it is specified. *)
Definition metadataAllows (r : Review.t) (f : ReviewFilter.t) : bool :=
  match Review.internalMetadata r with
  | Some m =>
      whenSet (ReviewFilter.status f) (existsb (statusEqb (status m)))
      && whenSet (ReviewFilter.tags f)
                 (fun l => existsb (fun t => inList t l) (tags m))
      && whenSet (ReviewFilter.assignedTo f)
                 (fun l => match assignedTo m with
                           | Some a => inList a l
                           | None => false
                           end)
  | None =>
      match ReviewFilter.status f, ReviewFilter.tags f,
            ReviewFilter.assignedTo f with
      | None, None, None => true
      | _, _, _ => false
      end
  end.

(** Modelled from the spec: the Filter Evaluator [matches(review, filter)]
    of section 4.2, the conjunction of all specified constraints
    ([limit] and [offset] are not constraints). *)
Definition matches (r : Review.t) (f : ReviewFilter.t) : bool :=
  whenSet (ReviewFilter.appPackage f) (String.eqb (Review.appPackage r))
  && whenSet (ReviewFilter.minRating f) (fun m => m <=? Review.rating r)
  && whenSet (ReviewFilter.maxRating f) (fun m => Review.rating r <=? m)
  && whenSet (ReviewFilter.startDate f) (fun d => String.leb d (Review.date r))
  && whenSet (ReviewFilter.endDate f) (fun d => String.leb (Review.date r) d)
  && allowed (ReviewFilter.languages f) (Review.language r)
  && allowed (ReviewFilter.countries f) (Review.country r)
  && allowed (ReviewFilter.appVersions f) (Review.appVersion r)
  && whenSet (ReviewFilter.minAppVersion f) (versionAtLeast (Review.appVersion r))
  && allowed (ReviewFilter.deviceTypes f) (device (Review.deviceMetadata r))
  && allowed (ReviewFilter.osVersions f) (osVersion (Review.deviceMetadata r))
  && whenSet (ReviewFilter.minOsVersion f)
             (versionAtLeast (osVersion (Review.deviceMetadata r)))
  && whenSet (ReviewFilter.hasReply f) (Bool.eqb (hasReplyData r))
  && whenSet (ReviewFilter.hasFreshReply f) (Bool.eqb (freshReply r))
  && metadataAllows r f.

(** Modelled from the spec: the order of [find], by [date] descending,
    ties broken by [id] ascending. *)
Definition precedes (a b : Review.t) : bool :=
  String.ltb (Review.date b) (Review.date a)
  || (String.eqb (Review.date a) (Review.date b)
      && String.leb (Review.id a) (Review.id b)).

Fixpoint insertOrdered (r : Review.t) (l : list Review.t) : list Review.t :=
  match l with
  | [] => [r]
  | x :: l' => if precedes r x then r :: l else x :: insertOrdered r l'
  end.

Definition ordered (l : list Review.t) : list Review.t :=
  fold_right insertOrdered [] l.

(** The elements at positions [offset <= i < offset + limit]. *)
Definition window {A} (offset limit : Z) (l : list A) : list A :=
  firstn (Z.to_nat (offset + limit) - Z.to_nat offset)
         (skipn (Z.to_nat offset) l).

Definition limitOf (f : ReviewFilter.t) : Z :=
  match ReviewFilter.limit f with Some l => l | None => 20 end.

Definition offsetOf (f : ReviewFilter.t) : Z :=
  match ReviewFilter.offset f with Some o => o | None => 0 end.

(** Modelled from the spec: the range of the pagination fields,
    [limit] in [1,100] and [offset] at least 0. *)
Definition pageInRange (f : ReviewFilter.t) : bool :=
  (1 <=? limitOf f) && (limitOf f <=? 100) && (0 <=? offsetOf f).

(** Modelled from the spec: the candidate set of [find], by
    [appPackage] if given, else the entire store. *)
Definition candidates (f : ReviewFilter.t) (st : Store) : list Review.t :=
  match ReviewFilter.appPackage f with
  | Some p => List.filter (fun r => String.eqb (Review.appPackage r) p)
                          (allReviews st)
  | None => allReviews st
  end.

(** All reviews of the store that satisfy the filter, in the order of
    [find], before slicing. *)
Definition matching (f : ReviewFilter.t) (st : Store) : list Review.t :=
  ordered (List.filter (fun r => matches r f) (candidates f st)).

(** Modelled from the spec: [ReviewsRepository.find] (section 4.3):
    candidate set, Filter Evaluator, order, slice
    [[offset, offset+limit)].  The specification also lets [find] fail
    with [InvalidArgument] when the pagination fields are out of range;
    [handleSearchReviews], on the other hand, calls [find] with
    [limit: 1000] and works on what it returns, which no [find] with that
    check allows.  The sources do not settle which of the two the
    repository does, so both are kept: [rangeChecked = true] is the
    specification's [find], [rangeChecked = false] the same [find]
    without the range check.  What is proved of [get_reviews] and of the
    resources is proved for both; a search can only be evaluated with
    the second. *)
Definition find (rangeChecked : bool) (f : ReviewFilter.t) : M (list Review.t) :=
  fun st =>
    if rangeChecked && negb (pageInRange f)
    then (Err (RepositoryError InvalidArgument), st)
    else (Ok (window (offsetOf f) (limitOf f) (matching f st)), st).

(** Modelled from the spec: [countReviews(appPackage)], the number of
    reviews of the app; the caller supplies no other filter field. *)
Definition countReviews (p : string) : M Z :=
  fun st =>
    (Ok (Z.of_nat
           (List.length
              (List.filter (fun r => String.eqb (Review.appPackage r) p)
                           (allReviews st)))), st).

Definition lookup (reviewId : string) (l : list Review.t) : option Review.t :=
  List.find (fun r => String.eqb (Review.id r) reviewId) l.

(** Modelled from the spec: [findById(id)], the review or absent. *)
Definition findById (reviewId : string) : M (option Review.t) :=
  fun st => (Ok (lookup reviewId (allReviews st)), st).

(** Modelled from the spec: [upsertReview], replace by identity. *)
Fixpoint upsertReview (r : Review.t) (l : list Review.t) : list Review.t :=
  match l with
  | [] => [r]
  | x :: l' =>
      if String.eqb (Review.id x) (Review.id r) then r :: l'
      else x :: upsertReview r l'
  end.

(** [status] advances to [responded] unless it is [resolved]. *)
Definition advanceStatus (m : InternalMetadata) : InternalMetadata :=
  {| status := match status m with resolved => resolved | _ => responded end;
     tags := tags m;
     assignedTo := assignedTo m;
     notes := notes m |}.

Definition withReply (rd : ReplyData) (r : Review.t) : Review.t :=
  {| Review.id := Review.id r;
     Review.appPackage := Review.appPackage r;
     Review.userName := Review.userName r;
     Review.userImage := Review.userImage r;
     Review.rating := Review.rating r;
     Review.title := Review.title r;
     Review.text := Review.text r;
     Review.date := Review.date r;
     Review.lastUpdateDate := Review.lastUpdateDate r;
     Review.language := Review.language r;
     Review.country := Review.country r;
     Review.appVersion := Review.appVersion r;
     Review.deviceMetadata := Review.deviceMetadata r;
     Review.replyData := Some rd;
     Review.internalMetadata :=
       option_map advanceStatus (Review.internalMetadata r) |}.

Definition replyTextOk (replyText : string) : bool :=
  negb (String.eqb replyText "") && (String.length replyText <=? 350)%nat.

(** Modelled from the spec: [addReply(reviewId, replyText)] of the Reply
    Mutator (section 4.4).  A [replyText] that is empty or longer than 350
    characters is rejected with [InvalidArgument] before anything is
    changed; an unknown [reviewId] yields [false]; otherwise a reply with
    a fresh [replyId] and the current time overwrites the review's
    [replyData], the status advances, and the review is written back.
    The specification names both checks and fixes no order between them:
    here the text is checked first, in [SpecRepoIdFirst.addReply] the
    [reviewId] is resolved first. *)
Definition addReply (reviewId replyText : string) : M bool :=
  fun st =>
    if negb (replyTextOk replyText)
    then (Err (RepositoryError InvalidArgument), st)
    else match lookup reviewId (allReviews st) with
         | None => (Ok false, st)
         | Some r =>
             let rd := {| replyId := "reply-" ++ Js.showNat (replySeq st);
                          replyText := replyText;
                          replyDate := clock st;
                          lastEditDate := None |} in
             (Ok true,
              {| allReviews := upsertReview (withReply rd r) (allReviews st);
                 allApps := allApps st;
                 replySeq := S (replySeq st);
                 clock := clock st |})
         end.

Definition reviewsRepository (rangeChecked : bool) : ReviewsRepository :=
  Build_ReviewsRepository (find rangeChecked) countReviews findById addReply.

Definition sumRatings (rs : list Review.t) : Z :=
  fold_right (fun r acc => Review.rating r + acc) 0 rs.

(** Modelled from the spec: the arithmetic mean of the ratings, 0 for no
    review (no division by zero). *)
Definition meanRating (rs : list Review.t) : Q :=
  match rs with
  | [] => 0%Q
  | _ => Qmake (sumRatings rs) (Pos.of_nat (List.length rs))
  end.

(** Modelled from the spec: [findAll] of the store. *)
Definition findAll : M (list AppMetadata) :=
  fun st => (Ok (allApps st), st).

(** Modelled from the spec: [getAppStats(appPackage)] (section 4.5),
    absent for an unknown app, else count and mean rating of the app's
    reviews, recomputed on every call. *)
Definition getAppStats (p : string) : M (option AppStats) :=
  fun st =>
    if existsb (fun a => String.eqb (packageName a) p) (allApps st)
    then
      let rs := List.filter (fun r => String.eqb (Review.appPackage r) p)
                            (allReviews st) in
      (Ok (Some {| appTotalReviews := Z.of_nat (List.length rs);
                   appAverageRating := meanRating rs |}), st)
    else (Ok None, st).

Definition appsRepository : AppsRepository :=
  Build_AppsRepository findAll getAppStats.

(** Modelled from the spec: the global statistics, which sum across all
    apps the same way as [getAppStats]. *)
Definition globalStats (st : Store) : GeneralStats :=
  {| totalApps := Z.of_nat (List.length (allApps st));
     totalReviews := Z.of_nat (List.length (allReviews st));
     averageRating := meanRating (allReviews st) |}.

End SpecRepo.

(* ------------------------------------------------------------------ *)
(** ** Concrete stores and requests *)

Module Examples.

Definition review (i app : string) (stars : Z) (body : string) : Review.t :=
  {| Review.id := i;
     Review.appPackage := app;
     Review.userName := "user";
     Review.userImage := None;
     Review.rating := stars;
     Review.title := None;
     Review.text := body;
     Review.date := "2025-03-01T10:00:00Z";
     Review.lastUpdateDate := "2025-03-01T10:00:00Z";
     Review.language := "en";
     Review.country := "US";
     Review.appVersion := "1.2.0";
     Review.deviceMetadata :=
       {| device := "Pixel 8"; os := "Android"; osVersion := "14" |};
     Review.replyData := None;
     Review.internalMetadata := None |}.

Definition app (p : string) : AppMetadata :=
  {| packageName := p; title := p; icon := None; latestVersion := None;
     description := None; category := None; developer := None;
     updatedAt := None |}.

Definition storeOf (rs : list Review.t) (apps : list AppMetadata) : Store :=
  {| allReviews := rs; allApps := apps; replySeq := 0;
     clock := "2025-04-01T09:30:00Z" |}.

(** Three reviews of [com.example.app], rated 5, 1 and 5. *)
Definition exampleStore : Store :=
  storeOf [ review "r1" "com.example.app" 5 "Love it";
            review "r2" "com.example.app" 1 "Crash!! on start";
            review "r3" "com.example.app" 5 "Works well" ]
          [ app "com.example.app" ].

(** One app with a single five-star review. *)
Definition oneReviewStore : Store :=
  storeOf [ review "r1" "com.example.app" 5 "Love it" ]
          [ app "com.example.app" ].

(** One review of [com.alpha], two of [com.beta]. *)
Definition twoAppStore : Store :=
  storeOf [ review "a1" "com.alpha" 4 "Fine";
            review "b1" "com.beta" 2 "Slow";
            review "b2" "com.beta" 3 "Better now" ]
          [ app "com.alpha"; app "com.beta" ].

(** 1001 reviews whose text contains the word crash. *)
Definition bigStore : Store :=
  storeOf (List.map (fun n => review ("r" ++ Js.showNat n) "com.example.app"
                                     1 "crash")
                    (List.seq 0 1001))
          [ app "com.example.app" ].

(** The payload [{ minRating: 5 }]. *)
Definition minRating5 : ReviewFilter.t :=
  {| ReviewFilter.appPackage := None;
     ReviewFilter.minRating := Some 5;
     ReviewFilter.maxRating := None;
     ReviewFilter.startDate := None; ReviewFilter.endDate := None;
     ReviewFilter.languages := None; ReviewFilter.countries := None;
     ReviewFilter.appVersions := None; ReviewFilter.minAppVersion := None;
     ReviewFilter.deviceTypes := None; ReviewFilter.osVersions := None;
     ReviewFilter.minOsVersion := None; ReviewFilter.hasReply := None;
     ReviewFilter.hasFreshReply := None; ReviewFilter.status := None;
     ReviewFilter.tags := None; ReviewFilter.assignedTo := None;
     ReviewFilter.limit := None; ReviewFilter.offset := None |}.

Definition getReviews (p : string) (payload : option ReviewFilter.t)
  : GetReviewsArgs.t :=
  {| GetReviewsArgs.appPackage := Js.Str p;
     GetReviewsArgs.filter := payload |}.

(** [{ query: q }] *)
Definition search (q : string) : SearchReviewsArgs.t :=
  {| SearchReviewsArgs.query := Js.Str q;
     SearchReviewsArgs.appPackage := Js.Undefined;
     SearchReviewsArgs.filter := None;
     SearchReviewsArgs.limit := None;
     SearchReviewsArgs.offset := None |}.

Fixpoint repeatChar (n : nat) (c : ascii) : string :=
  match n with
  | O => EmptyString
  | S n' => String c (repeatChar n' c)
  end.

End Examples.

(** [q] occurs in [s] when case is ignored. *)
Definition containsIgnoreCase (s q : string) : Prop :=
  exists a b, Js.toLowerCase s = a ++ Js.toLowerCase q ++ b.

(** What a search total would be if the text test ran over every review of
    the store that passes the other filters. *)
Definition fullSearchTotal (args : SearchReviewsArgs.t) (q : string) (st : Store)
  : Z :=
  Z.of_nat
    (List.length
       (List.filter (combinedFilter args (Js.toLowerCase q))
                    (SpecRepo.matching (searchBatchFilter args) st))).

(* ------------------------------------------------------------------ *)
(** ** The other order of the checks of [addReply] *)

Module SpecRepoIdFirst.

(** Modelled from the spec: [addReply(reviewId, replyText)] of the Reply
    Mutator (section 4.4), with its two checks in the order in which the
    specification lists them: the [reviewId] is resolved first, an unknown
    one yielding [false]; then a [replyText] that is empty or longer than
    350 characters is rejected with [InvalidArgument]; nothing is changed
    in either case.  Otherwise the reply is stored as by
    [SpecRepo.addReply]. *)
Definition addReply (reviewId replyText : string) : M bool :=
  fun st =>
    match SpecRepo.lookup reviewId (allReviews st) with
    | None => (Ok false, st)
    | Some r =>
        if negb (SpecRepo.replyTextOk replyText)
        then (Err (RepositoryError InvalidArgument), st)
        else
          let rd := {| replyId := "reply-" ++ Js.showNat (replySeq st);
                       replyText := replyText;
                       replyDate := clock st;
                       lastEditDate := None |} in
          (Ok true,
           {| allReviews :=
                SpecRepo.upsertReview (SpecRepo.withReply rd r) (allReviews st);
              allApps := allApps st;
              replySeq := S (replySeq st);
              clock := clock st |})
    end.

Definition reviewsRepository (rangeChecked : bool) : ReviewsRepository :=
  Build_ReviewsRepository (SpecRepo.find rangeChecked) SpecRepo.countReviews
                          SpecRepo.findById addReply.

End SpecRepoIdFirst.



(** The reading of the pagination rule under which every [get_reviews]
    request whose payload carries a [limit] outside [1,100] or an [offset]
    below 0 is rejected as an invalid argument. *)
Definition rejectsOutOfRangePage (repo : ReviewsRepository) : Prop :=
  forall (args : GetReviewsArgs.t) (st : Store) (p : string),
    GetReviewsArgs.appPackage args = Js.Str p ->
    (exists l, payloadLimit (GetReviewsArgs.filter args) = Some l
               /\ (l < 1 \/ 100 < l))
    \/ (exists o, payloadOffset (GetReviewsArgs.filter args) = Some o /\ o < 0) ->
    exists e st',
      handleGetReviews repo args st = (Err e, st')
      /\ isInvalidArgument e = true.

(* ------------------------------------------------------------------ *)
(** ** Request routing ([setupResourceHandlers], [setupToolHandlers]) *)

(** Exceptions of the JavaScript runtime itself, which are not [McpError]s. *)
Inductive NativeError : Type :=
| URIError
| TypeError.

(** How the promise of a request handler settles. *)
Inductive Completion (A : Type) : Type :=
| Resolved (a : A)
| Rejected (e : Error)
| RejectedNative (e : NativeError).
Arguments Resolved {A} _.
Arguments Rejected {A} _.
Arguments RejectedNative {A} _.

(** The promise of a handler, its value injected into the result type of
    the dispatcher that returns it. *)
Definition settle {A B} (inj : A -> B) (c : M A)
  : Store -> Completion B * Store :=
  fun st =>
    match c st with
    | (Ok a, st') => (Resolved (inj a), st')
    | (Err e, st') => (Rejected e, st')
    end.

Definition rejectWith {B} (e : Error) : Store -> Completion B * Store :=
  fun st => (Rejected e, st).

Definition rejectNative {B} (e : NativeError) : Store -> Completion B * Store :=
  fun st => (RejectedNative e, st).

(** The rest of [s] after the literal [p], when [s] begins with [p]. *)
Fixpoint stripPrefix (p s : string) : option string :=
  match p with
  | EmptyString => Some s
  | String a p' =>
      match s with
      | EmptyString => None
      | String b s' => if Ascii.eqb a b then stripPrefix p' s' else None
      end
  end.

Fixpoint noSlash (s : string) : bool :=
  match s with
  | EmptyString => true
  | String c s' => negb (Ascii.eqb c "/"%char) && noSlash s'
  end.

(** [s] matches [[^/]+] in full. *)
Definition isSegment (s : string) : bool :=
  negb (s =? "")%string && noSlash s.

(** The parts of [s] before and after its first slash. *)
Fixpoint splitAtSlash (s : string) : option (string * string) :=
  match s with
  | EmptyString => None
  | String c s' =>
      if Ascii.eqb c "/"%char then Some (EmptyString, s')
      else match splitAtSlash s' with
           | Some (a, b) => Some (String c a, b)
           | None => None
           end
  end.

(** [uri.match(/^prefix([^/]+)$/)], giving the captured group. *)
Definition matchSegment (prefix uri : string) : option string :=
  match stripPrefix prefix uri with
  | Some seg => if isSegment seg then Some seg else None
  | None => None
  end.

(** [uri.match(/^prefix([^/]+)\/([^/]+)$/)], giving the two groups. *)
Definition matchTwoSegments (prefix uri : string) : option (string * string) :=
  match stripPrefix prefix uri with
  | Some rest =>
      match splitAtSlash rest with
      | Some (a, b) => if isSegment a && isSegment b then Some (a, b) else None
      | None => None
      end
  | None => None
  end.

(** What a resource read resolves to, by the handler that served it. *)
Inductive ResourceResult : Type :=
| AppsContents (c : ResourceContents (list AppMetadata))
| StatsContents (c : ResourceContents GeneralStats)
| AppReviewsContents (c : ResourceContents (list Review.t))
| SpecificReviewContents (c : ResourceContents Review.t)
| AppStatsContents (c : ResourceContents AppStats).

(** The [arguments] object of a tool call: one object, of which each
    handler reads its own fields. *)
Module ToolArgs.
Record t : Type := {
  appPackage : Js.value;
  filter : option ReviewFilter.t;
  reviewId : Js.value;
  replyText : Js.value;
  query : Js.value;
  limit : option Z;
  offset : option Z
}.

Definition forGetReviews (a : t) : GetReviewsArgs.t :=
  {| GetReviewsArgs.appPackage := appPackage a;
     GetReviewsArgs.filter := filter a |}.

Definition forPostReply (a : t) : PostReplyArgs.t :=
  {| PostReplyArgs.reviewId := reviewId a;
     PostReplyArgs.replyText := replyText a |}.

Definition forSearchReviews (a : t) : SearchReviewsArgs.t :=
  {| SearchReviewsArgs.query := query a;
     SearchReviewsArgs.appPackage := appPackage a;
     SearchReviewsArgs.filter := filter a;
     SearchReviewsArgs.limit := limit a;
     SearchReviewsArgs.offset := offset a |}.
End ToolArgs.

Inductive ToolResult : Type :=
| ReviewsResult (r : ReviewsResponse)
| ReplyResult (r : ReplyResponse.t).

(** The names under which [ListTools] advertises the tools. *)
Definition listedTools : list string :=
  ["get_reviews"; "post_reply"; "search_reviews"].

Section Server.

Variable reviewsRepository : ReviewsRepository.
Variable appsRepository : AppsRepository.

(** The runtime's [decodeURIComponent]; [None] when it throws [URIError]. *)
Variable decodeURIComponent : string -> option string.

(** The [ReadResource] request handler. *)
Definition readResource (uri : string) : Store -> Completion ResourceResult * Store :=
  if (uri =? "googleplay://apps")%string then
    settle AppsContents (handleAppsResource appsRepository)
  else if (uri =? "googleplay://stats")%string then
    settle StatsContents handleStatsResource
  else
    match matchSegment "googleplay://reviews/" uri with
    | Some seg =>
        match decodeURIComponent seg with
        | Some appPackage =>
            settle AppReviewsContents
                   (handleAppReviewsResource reviewsRepository appPackage)
        | None => rejectNative URIError
        end
    | None =>
        match matchTwoSegments "googleplay://reviews/" uri with
        | Some (seg1, seg2) =>
            match decodeURIComponent seg1 with
            | Some appPackage =>
                match decodeURIComponent seg2 with
                | Some reviewId =>
                    settle SpecificReviewContents
                           (handleSpecificReviewResource reviewsRepository
                                                         appPackage reviewId)
                | None => rejectNative URIError
                end
            | None => rejectNative URIError
            end
        | None =>
            match matchSegment "googleplay://stats/" uri with
            | Some seg =>
                match decodeURIComponent seg with
                | Some appPackage =>
                    settle AppStatsContents
                           (handleAppStatsResource appsRepository appPackage)
                | None => rejectNative URIError
                end
            | None =>
                rejectWith (McpError InvalidRequest ("Invalid URI format: " ++ uri))
            end
        end
    end.

(** The [CallTool] request handler.  The promise of the chosen handler is
    returned as it is (it is not awaited inside the [try]), so its
    rejection is that of the handler; the [catch] only sees the error of
    the [default] case, which it throws again.  [args] is absent when the
    request has no [arguments]; reading a field of it is then a
    [TypeError]. *)
Definition callTool (name : string) (args : option ToolArgs.t)
  : Store -> Completion ToolResult * Store :=
  if (name =? "get_reviews")%string then
    match args with
    | Some a => settle ReviewsResult
                       (handleGetReviews reviewsRepository (ToolArgs.forGetReviews a))
    | None => rejectNative TypeError
    end
  else if (name =? "post_reply")%string then
    match args with
    | Some a => settle ReplyResult
                       (handlePostReply reviewsRepository (ToolArgs.forPostReply a))
    | None => rejectNative TypeError
    end
  else if (name =? "search_reviews")%string then
    match args with
    | Some a => settle ReviewsResult
                       (handleSearchReviews reviewsRepository
                                            (ToolArgs.forSearchReviews a))
    | None => rejectNative TypeError
    end
  else rejectWith (McpError MethodNotFound ("Unknown tool: " ++ name)).

End Server.

(** A URI segment as the templates mean it: not empty, no slash. *)
Definition Segment (s : string) : Prop :=
  s <> "" /\ forall a b, s <> a ++ "/" ++ b.

(* ------------------------------------------------------------------ *)
(** ** Start-up ([initialize], [run]) *)

Inductive StartupStep : Type :=
| InitReviews
| InitApps
| ConnectTransport
| ConsoleLog (message : string)
| ConsoleError (message : string)
| ProcessExit (code : Z).

Section Startup.

(** Whether [reviewsRepository.init()], [appsRepository.init()] and
    [server.connect(transport)] resolve. *)
Variables reviewsInitOk appsInitOk connectOk : bool.

(** [initialize]: the steps taken, and whether it returns normally. *)
Definition initialize : list StartupStep * bool :=
  if reviewsInitOk then
    if appsInitOk then
      ([InitReviews; InitApps;
        ConsoleLog "Google Play Reviews MCP Server initialized"], true)
    else
      ([InitReviews; InitApps;
        ConsoleError "Failed to initialize server:"], false)
  else
    ([InitReviews; ConsoleError "Failed to initialize server:"], false).

(** [run]: the steps taken until it returns or the process exits. *)
Definition run : list StartupStep :=
  let (steps, ok) := initialize in
  if ok then
    if connectOk then
      steps ++ [ConnectTransport;
                ConsoleLog "Google Play Reviews MCP server running on stdio"]
    else
      steps ++ [ConnectTransport;
                ConsoleError "Failed to start server:"; ProcessExit 1]
  else
    steps ++ [ConsoleError "Failed to start server:"; ProcessExit 1].

End Startup.

(** [decodeURIComponent] on URIs without percent escapes, where it returns
    its argument. *)
Definition decodeUnescaped (s : string) : option string := Some s.

(* ------------------------------------------------------------------ *)
(** ** Properties of the JavaScript primitives *)

Lemma startsWith_iff (q s : string) :
  Js.startsWith q s = true <-> exists b, s = q ++ b.
Proof.
  revert s. induction q as [|a q IH]; intros s; simpl.
  - split; [intros _; now exists s | reflexivity].
  - destruct s as [|c s].
    + split; [discriminate | intros [b Hb]; discriminate].
    + destruct (Ascii.eqb_spec a c) as [->|Hne].
      * rewrite IH. split; intros [b Hb]; exists b; [now rewrite Hb | now inversion Hb].
      * split; [discriminate | intros [b Hb]; inversion Hb; congruence].
Qed.

Lemma includes_iff (s q : string) :
  Js.includes s q = true <-> exists a b, s = a ++ q ++ b.
Proof.
  induction s as [|c s IH]; simpl.
  - destruct (Js.startsWith q "") eqn:E.
    + apply startsWith_iff in E. destruct E as [b Hb].
      split; [intros _; now exists "", b | reflexivity].
    + split; [discriminate|]. intros [a [b Hab]].
      destruct a; [|discriminate]. simpl in Hab.
      assert (Js.startsWith q "" = true) by (apply startsWith_iff; now exists b).
      congruence.
  - destruct (Js.startsWith q (String c s)) eqn:E.
    + apply startsWith_iff in E. destruct E as [b Hb].
      split; [intros _; now exists "", b | reflexivity].
    + rewrite IH. split.
      * intros [a [b Hab]]. exists (String c a), b. simpl. now rewrite Hab.
      * intros [a [b Hab]]. destruct a as [|c' a].
        -- simpl in Hab.
           assert (Js.startsWith q (String c s) = true)
             by (apply startsWith_iff; now exists b).
           congruence.
        -- simpl in Hab. inversion Hab. now exists a, b.
Qed.

Lemma toLowerCase_empty (s : string) :
  Js.toLowerCase s = "" -> s = "".
Proof. destruct s; [reflexivity | discriminate]. Qed.

Lemma append_empty_inv (a b : string) : a ++ b = "" -> a = "" /\ b = "".
Proof. destruct a; simpl; [auto | discriminate]. Qed.

Lemma orDefault_idem (x : option Z) (d : Z) :
  Js.orDefault (Some (Js.orDefault x d)) d = Js.orDefault x d.
Proof.
  unfold Js.orDefault.
  destruct x as [v|].
  - destruct (v =? 0) eqn:E.
    + now destruct (d =? 0).
    + now rewrite E.
  - now destruct (d =? 0).
Qed.

(* ------------------------------------------------------------------ *)
(** ** Properties of the repository model *)

Lemma insertOrdered_perm (r : Review.t) (l : list Review.t) :
  Permutation (r :: l) (SpecRepo.insertOrdered r l).
Proof.
  induction l as [|x l IH]; simpl.
  - apply Permutation_refl.
  - destruct (SpecRepo.precedes r x).
    + apply Permutation_refl.
    + eapply perm_trans; [apply perm_swap | now apply perm_skip].
Qed.

Lemma ordered_perm (l : list Review.t) : Permutation l (SpecRepo.ordered l).
Proof.
  induction l as [|x l IH]; simpl.
  - apply perm_nil.
  - eapply perm_trans; [apply perm_skip, IH | apply insertOrdered_perm].
Qed.

Lemma In_firstn {A} (n : nat) (l : list A) (x : A) :
  In x (firstn n l) -> In x l.
Proof.
  intros H. rewrite <- (firstn_skipn n l). apply in_or_app. now left.
Qed.

Lemma In_skipn {A} (n : nat) (l : list A) (x : A) :
  In x (skipn n l) -> In x l.
Proof.
  intros H. rewrite <- (firstn_skipn n l). apply in_or_app. now right.
Qed.

Lemma window_incl {A} (o n : Z) (l : list A) (x : A) :
  In x (SpecRepo.window o n l) -> In x l.
Proof.
  unfold SpecRepo.window. intros H.
  apply In_firstn in H. now apply In_skipn in H.
Qed.

Lemma window_length {A} (o n : Z) (l : list A) :
  0 <= n -> Z.of_nat (List.length (SpecRepo.window o n l)) <= n.
Proof.
  intros Hn. unfold SpecRepo.window. rewrite length_firstn. lia.
Qed.

Lemma matching_In (f : ReviewFilter.t) (st : Store) (r : Review.t) :
  In r (SpecRepo.matching f st) <->
  In r (allReviews st) /\ SpecRepo.matches r f = true.
Proof.
  unfold SpecRepo.matching. split.
  - intros H.
    apply (Permutation_in _ (Permutation_sym (ordered_perm _))) in H.
    apply filter_In in H. destruct H as [Hc Hm]. split; [|exact Hm].
    unfold SpecRepo.candidates in Hc.
    destruct (ReviewFilter.appPackage f); [apply filter_In in Hc; tauto | exact Hc].
  - intros [Hin Hm].
    apply (Permutation_in _ (ordered_perm _)).
    apply filter_In. split; [|exact Hm].
    unfold SpecRepo.candidates.
    destruct (ReviewFilter.appPackage f) as [p|] eqn:Ep; [|exact Hin].
    apply filter_In. split; [exact Hin|].
    unfold SpecRepo.matches in Hm. rewrite Ep in Hm. simpl in Hm.
    repeat (apply andb_true_iff in Hm; destruct Hm as [Hm _]).
    exact Hm.
Qed.

Lemma matches_appPackage (f : ReviewFilter.t) (r : Review.t) (p : string) :
  ReviewFilter.appPackage f = Some p ->
  SpecRepo.matches r f = true -> Review.appPackage r = p.
Proof.
  intros Ep Hm. unfold SpecRepo.matches in Hm. rewrite Ep in Hm. simpl in Hm.
  repeat (apply andb_true_iff in Hm; destruct Hm as [Hm _]).
  now apply String.eqb_eq.
Qed.

Lemma lookup_Some (i : string) (l : list Review.t) (r : Review.t) :
  SpecRepo.lookup i l = Some r -> In r l /\ Review.id r = i.
Proof.
  unfold SpecRepo.lookup. intros H. apply find_some in H.
  destruct H as [Hin He]. split; [exact Hin | now apply String.eqb_eq].
Qed.

Lemma lookup_None (i : string) (l : list Review.t) :
  SpecRepo.lookup i l = None <-> forall r, In r l -> Review.id r <> i.
Proof.
  unfold SpecRepo.lookup. split.
  - intros H r Hin Hid.
    pose proof (find_none _ _ H r Hin) as Hf. simpl in Hf.
    rewrite Hid, String.eqb_refl in Hf. discriminate.
  - intros H. destruct (List.find _ l) as [r|] eqn:E; [|reflexivity].
    apply find_some in E. destruct E as [Hin He].
    apply String.eqb_eq in He. now elim (H r Hin).
Qed.

Lemma lookup_upsert (i : string) (l : list Review.t) (r r' : Review.t) :
  SpecRepo.lookup i l = Some r -> Review.id r' = Review.id r ->
  SpecRepo.lookup i (SpecRepo.upsertReview r' l) = Some r'.
Proof.
  intros Hl Hid.
  assert (Hi : Review.id r' = i).
  { apply lookup_Some in Hl. destruct Hl as [_ Hl]. congruence. }
  clear Hid. revert Hl. unfold SpecRepo.lookup.
  induction l as [|x l IH]; simpl; [discriminate|].
  destruct (String.eqb_spec (Review.id x) i) as [Hx|Hx].
  - intros _. rewrite Hi, <- Hx, String.eqb_refl. simpl.
    rewrite Hi, <- Hx. now rewrite String.eqb_refl.
  - intros Hl. rewrite Hi.
    destruct (String.eqb_spec (Review.id x) i) as [|_]; [contradiction|].
    simpl. destruct (String.eqb_spec (Review.id x) i) as [|_]; [contradiction|].
    now apply IH.
Qed.

(* ------------------------------------------------------------------ *)
(** ** What the handlers hand to the repository *)

Lemma getReviewsFilter_limit (p : string) (payload : option ReviewFilter.t) :
  SpecRepo.limitOf (getReviewsFilter p payload)
  = Js.orDefault (payloadLimit payload) 20.
Proof. reflexivity. Qed.

Lemma getReviewsFilter_offset (p : string) (payload : option ReviewFilter.t) :
  SpecRepo.offsetOf (getReviewsFilter p payload)
  = Js.orDefault (payloadOffset payload) 0.
Proof. reflexivity. Qed.

Lemma getReviewsFilter_appPackage (p q : string) (f : ReviewFilter.t) :
  ReviewFilter.appPackage f = Some q ->
  ReviewFilter.appPackage (getReviewsFilter p (Some f)) = Some q.
Proof. intros H. unfold getReviewsFilter. simpl. now rewrite H. Qed.

(** For any repository, the [total] of a [get_reviews] response is the value
    of [countReviews] on the top-level [appPackage]; the payload reaches
    [find] only. *)
Lemma get_reviews_total_from_countReviews
      (repo : ReviewsRepository) (args : GetReviewsArgs.t) (st st' : Store)
      (p : string) (resp : ReviewsResponse) :
  GetReviewsArgs.appPackage args = Js.Str p ->
  handleGetReviews repo args st = (Ok resp, st') ->
  exists rs st1,
    find repo (getReviewsFilter p (GetReviewsArgs.filter args)) st = (Ok rs, st1)
    /\ countReviews repo p st1 = (Ok (total (pagination resp)), st')
    /\ reviews resp = rs.
Proof.
  intros Hp H. unfold handleGetReviews in H. rewrite Hp in H.
  unfold bind in H.
  destruct (find repo _ st) as [[rs|e] st1] eqn:Ef; [|discriminate].
  destruct (countReviews repo p st1) as [[n|e] st2] eqn:Ec; [|discriminate].
  unfold ret in H. inversion H; subst; clear H. simpl.
  exists rs, st1. repeat split; assumption.
Qed.

(* ------------------------------------------------------------------ *)
(** ** The claims *)

(** C1. [pagination.total] of [get_reviews] should count the reviews that
    match the full filter.  On the store with three reviews of
    [com.example.app] rated 5, 1 and 5 and the payload [{minRating: 5}],
    two reviews match and two are returned, but the handler reports
    [total = 3]: it asks [countReviews] for the app alone. *)
Theorem get_reviews_total_counts_whole_app (rangeChecked : bool) :
  exists resp,
    handleGetReviews (SpecRepo.reviewsRepository rangeChecked)
      (Examples.getReviews "com.example.app" (Some Examples.minRating5))
      Examples.exampleStore
    = (Ok resp, Examples.exampleStore)
    /\ List.map Review.id (reviews resp) = ["r1"; "r3"]
    /\ List.length
         (SpecRepo.matching
            (getReviewsFilter "com.example.app" (Some Examples.minRating5))
            Examples.exampleStore) = 2%nat
    /\ total (pagination resp) = 3.
Proof.
  destruct rangeChecked; eexists; (split; [vm_compute; reflexivity|]);
    repeat split; vm_compute; reflexivity.
Qed.

(** C3. Reading [googleplay://reviews/P] should return reviews of app [P]
    only.  The handler calls [find] with [{limit: 10, offset: 0}] and no
    [appPackage], so what it returns does not depend on [P]; on the
    two-app store, reading the reviews of [com.alpha] yields reviews of
    [com.beta] as well. *)
Theorem app_reviews_resource_not_restricted :
  (forall (repo : ReviewsRepository) (P P' : string) (st : Store),
      match handleAppReviewsResource repo P st,
            handleAppReviewsResource repo P' st with
      | (Ok a, s), (Ok a', s') => body a = body a' /\ s = s'
      | (Err e, s), (Err e', s') => e = e' /\ s = s'
      | _, _ => False
      end)
  /\ forall rangeChecked,
      exists c,
        handleAppReviewsResource (SpecRepo.reviewsRepository rangeChecked)
          "com.alpha" Examples.twoAppStore
        = (Ok c, Examples.twoAppStore)
        /\ uri c = "googleplay://reviews/com.alpha"
        /\ List.map Review.appPackage (body c)
           = ["com.alpha"; "com.beta"; "com.beta"].
Proof.
  split.
  - intros repo P P' st. unfold handleAppReviewsResource, bind, ret.
    destruct (find repo _ st) as [[rs|e] st1]; simpl; auto.
  - intros b. destruct b; eexists; (split; [vm_compute; reflexivity|]);
      split; vm_compute; reflexivity.
Qed.

(** C7. [googleplay://stats] should report the number of apps, the number
    of reviews and the mean rating of the current store.  The handler
    returns the fixed object [{totalApps: 3, totalReviews: 8,
    averageRating: 3.4}] for every store; for the store with one app and
    one five-star review the figures would be 1, 1 and 5. *)
Theorem stats_resource_is_constant :
  (forall st : Store,
      handleStatsResource st
      = (Ok {| uri := "googleplay://stats";
               mimeType := "application/json";
               body := {| totalApps := 3; totalReviews := 8;
                          averageRating := 34 # 10 |} |}, st))
  /\ totalApps (SpecRepo.globalStats Examples.oneReviewStore) = 1
  /\ totalReviews (SpecRepo.globalStats Examples.oneReviewStore) = 1
  /\ (averageRating (SpecRepo.globalStats Examples.oneReviewStore) == 5)%Q
  /\ ~ (34 # 10 == 5)%Q.
Proof.
  split; [reflexivity|].
  repeat split; try reflexivity.
  intros H. unfold Qeq in H. simpl in H. discriminate.
Qed.

(** The handler itself imposes no range: for any repository, a successful
    [get_reviews] response echoes the payload's limit and offset, with 20
    and 0 standing in for an absent or zero value. *)
Lemma get_reviews_echoes_page
      (repo : ReviewsRepository) (args : GetReviewsArgs.t) (st st' : Store)
      (resp : ReviewsResponse) :
  handleGetReviews repo args st = (Ok resp, st') ->
  limit (pagination resp)
  = Js.orDefault (payloadLimit (GetReviewsArgs.filter args)) 20
  /\ offset (pagination resp)
     = Js.orDefault (payloadOffset (GetReviewsArgs.filter args)) 0.
Proof.
  unfold handleGetReviews.
  destruct (GetReviewsArgs.appPackage args); try discriminate.
  unfold bind.
  destruct (find repo _ st) as [[rs|e] st1]; [|discriminate].
  destruct (countReviews repo s st1) as [[n|e] st2]; [|discriminate].
  unfold ret. intros H. inversion H; subst; clear H.
  split; apply orDefault_idem.
Qed.

(** For any repository, [handleGetReviews] rejects nothing on account of
    the page: when it fails for a string [appPackage], the failure is that
    of [find] or of [countReviews]. *)
Lemma get_reviews_fails_only_in_repository
      (repo : ReviewsRepository) (args : GetReviewsArgs.t) (st st' : Store)
      (p : string) (e : Error) :
  GetReviewsArgs.appPackage args = Js.Str p ->
  handleGetReviews repo args st = (Err e, st') ->
  find repo (getReviewsFilter p (GetReviewsArgs.filter args)) st = (Err e, st')
  \/ exists rs st1,
      find repo (getReviewsFilter p (GetReviewsArgs.filter args)) st
      = (Ok rs, st1)
      /\ countReviews repo p st1 = (Err e, st').
Proof.
  intros Hp H. unfold handleGetReviews in H. rewrite Hp in H.
  unfold bind in H.
  destruct (find repo _ st) as [[rs|e1] st1] eqn:Ef.
  - right. exists rs, st1. split; [reflexivity|].
    destruct (countReviews repo p st1) as [[n|e2] st2]; [discriminate|].
    injection H as He Hs. now subst.
  - left. injection H as He Hs. now subst.
Qed.

(** C4.  A [get_reviews] request whose payload carries a [limit] outside
    [1,100] should fail with an invalid-argument error.  The payload
    [{limit: 0}] does not: [0 || 20] is 20, so the request succeeds, is
    answered with the first 20 reviews and echoes [limit = 20].  This is so
    with either reading of [find], the range check of the specification
    included, since [find] never sees the 0. *)
Theorem get_reviews_limit_zero_silently_defaulted (rangeChecked : bool) :
  (exists resp,
      handleGetReviews (SpecRepo.reviewsRepository rangeChecked)
        (Examples.getReviews "com.example.app"
           (Some (ReviewFilter.withPage (Some 0) None ReviewFilter.empty)))
        Examples.exampleStore
      = (Ok resp, Examples.exampleStore)
      /\ limit (pagination resp) = 20
      /\ List.map Review.id (reviews resp) = ["r1"; "r2"; "r3"])
  /\ ~ rejectsOutOfRangePage (SpecRepo.reviewsRepository rangeChecked).
Proof.
  assert (E : exists resp,
             handleGetReviews (SpecRepo.reviewsRepository rangeChecked)
               (Examples.getReviews "com.example.app"
                  (Some (ReviewFilter.withPage (Some 0) None ReviewFilter.empty)))
               Examples.exampleStore
             = (Ok resp, Examples.exampleStore)
             /\ limit (pagination resp) = 20
             /\ List.map Review.id (reviews resp) = ["r1"; "r2"; "r3"]).
  { destruct rangeChecked; eexists; (split; [vm_compute; reflexivity|]);
      split; reflexivity. }
  split; [exact E|].
  intros H. destruct E as [resp [E _]].
  destruct (H (Examples.getReviews "com.example.app"
                 (Some (ReviewFilter.withPage (Some 0) None ReviewFilter.empty)))
              Examples.exampleStore "com.example.app" eq_refl)
    as [e [st' [He _]]].
  - left. exists 0. split; [reflexivity | lia].
  - rewrite E in He. discriminate.
Qed.




(** For any repository, [handlePostReply] hands an empty [replyText] on to
    [addReply]: it fails when [addReply] fails, in the state [addReply]
    leaves. *)
Lemma post_reply_empty_text_forwarded
      (repo : ReviewsRepository) (reviewId : string) (st st' : Store) (e : Error) :
  addReply repo reviewId "" st = (Err e, st') ->
  handlePostReply repo
    {| PostReplyArgs.reviewId := Js.Str reviewId;
       PostReplyArgs.replyText := Js.Str "" |} st
  = (Err e, st').
Proof.
  intros H. unfold handlePostReply. cbn. unfold bind. now rewrite H.
Qed.

(** C6. For a [reviewId] that exists in the store, a [replyText] of exactly
    350 characters is accepted: the request succeeds and the review then
    carries that reply.  A [replyText] of 351 or more characters is turned
    down by the handler itself, with [InvalidParams], before the repository
    is called, whatever the repository. *)
Theorem post_reply_length_boundary
        (rangeChecked : bool) (rid msg : string) (st : Store) :
  (String.length msg = 350%nat ->
   (exists r, In r (allReviews st) /\ Review.id r = rid) ->
   exists resp st' r',
     handlePostReply (SpecRepo.reviewsRepository rangeChecked)
       {| PostReplyArgs.reviewId := Js.Str rid;
          PostReplyArgs.replyText := Js.Str msg |} st
     = (Ok resp, st')
     /\ ReplyResponse.success resp = true
     /\ SpecRepo.lookup rid (allReviews st') = Some r'
     /\ option_map replyText (Review.replyData r') = Some msg)
  /\ ((350 < String.length msg)%nat ->
      forall repo : ReviewsRepository,
      exists e,
        handlePostReply repo
          {| PostReplyArgs.reviewId := Js.Str rid;
             PostReplyArgs.replyText := Js.Str msg |} st
        = (Err e, st)
        /\ isInvalidArgument e = true).
Proof.
  split.
  - intros Hlen [r [Hin Hid]].
    destruct (SpecRepo.lookup rid (allReviews st)) as [r0|] eqn:El.
    2:{ rewrite lookup_None in El. now elim (El r Hin). }
    assert (Hok : SpecRepo.replyTextOk msg = true).
    { unfold SpecRepo.replyTextOk. rewrite Hlen.
      destruct msg; [discriminate Hlen | reflexivity]. }
    unfold handlePostReply.
    cbn [PostReplyArgs.reviewId PostReplyArgs.replyText].
    rewrite Hlen. change (350 <? 350)%nat with false. cbv iota.
    unfold bind.
    cbn [addReply findById SpecRepo.reviewsRepository].
    unfold SpecRepo.addReply. rewrite Hok, El. cbn [negb].
    unfold SpecRepo.findById. cbn [allReviews].
    erewrite lookup_upsert; [|exact El|reflexivity].
    cbn [SpecRepo.withReply Review.replyData]. unfold ret.
    do 3 eexists. split; [reflexivity|].
    split; [reflexivity|]. cbn [allReviews].
    split; [apply (lookup_upsert _ _ r0); [exact El|reflexivity]|].
    reflexivity.
  - intros Hlen repo. unfold handlePostReply.
    cbn [PostReplyArgs.reviewId PostReplyArgs.replyText].
    apply Nat.ltb_lt in Hlen. rewrite Hlen.
    eexists. split; reflexivity.
Qed.

Lemma post_reply_length_boundary_witness :
  (exists resp st' r',
      handlePostReply (SpecRepo.reviewsRepository true)
        {| PostReplyArgs.reviewId := Js.Str "r2";
           PostReplyArgs.replyText := Js.Str (Examples.repeatChar 350 "a") |}
        Examples.exampleStore
      = (Ok resp, st')
      /\ ReplyResponse.success resp = true
      /\ SpecRepo.lookup "r2" (allReviews st') = Some r'
      /\ option_map replyText (Review.replyData r')
         = Some (Examples.repeatChar 350 "a"))
  /\ forall repo : ReviewsRepository,
      exists e,
        handlePostReply repo
          {| PostReplyArgs.reviewId := Js.Str "r2";
             PostReplyArgs.replyText := Js.Str (Examples.repeatChar 351 "a") |}
          Examples.exampleStore
        = (Err e, Examples.exampleStore)
        /\ isInvalidArgument e = true.
Proof.
  split.
  - apply (proj1 (post_reply_length_boundary true "r2"
                    (Examples.repeatChar 350 "a") Examples.exampleStore)).
    + vm_compute. reflexivity.
    + exists (Examples.review "r2" "com.example.app" 1 "Crash!! on start").
      split; [simpl; auto | reflexivity].
  - apply (proj2 (post_reply_length_boundary true "r2"
                    (Examples.repeatChar 351 "a") Examples.exampleStore)).
    vm_compute. apply le_n.
Defined.

(** C9. When the payload of [get_reviews] has an [appPackage] of its own,
    it is the payload's [appPackage] that selects the returned reviews,
    while [pagination.total] counts the reviews of the top-level
    [appPackage]. *)
Theorem get_reviews_payload_appPackage_overrides
        (rangeChecked : bool) (args : GetReviewsArgs.t) (st st' : Store)
        (p q : string) (f : ReviewFilter.t) (resp : ReviewsResponse) :
  GetReviewsArgs.appPackage args = Js.Str p ->
  GetReviewsArgs.filter args = Some f ->
  ReviewFilter.appPackage f = Some q ->
  handleGetReviews (SpecRepo.reviewsRepository rangeChecked) args st
  = (Ok resp, st') ->
  (forall r, In r (reviews resp) ->
             In r (allReviews st) /\ Review.appPackage r = q)
  /\ total (pagination resp)
     = Z.of_nat
         (List.length
            (List.filter (fun r => String.eqb (Review.appPackage r) p)
                         (allReviews st))).
Proof.
  intros Hp Hf Hq H.
  destruct (get_reviews_total_from_countReviews _ _ _ _ _ _ Hp H)
    as [rs [st1 [Efind [Ecount Hrs]]]].
  rewrite Hf in Efind.
  cbn [find countReviews SpecRepo.reviewsRepository] in Efind, Ecount.
  unfold SpecRepo.find in Efind.
  subst rs.
  destruct (rangeChecked && negb (SpecRepo.pageInRange _)); [discriminate|].
  injection Efind as Hw Hst1. subst st1.
  unfold SpecRepo.countReviews in Ecount.
  injection Ecount as Htot Hst. subst st'. split; [|symmetry; exact Htot].
  intros r Hin. rewrite <- Hw in Hin.
  apply window_incl in Hin. apply matching_In in Hin.
  destruct Hin as [Hin Hm]. split; [exact Hin|].
  eapply matches_appPackage; [|exact Hm].
  now apply getReviewsFilter_appPackage.
Qed.

Lemma get_reviews_payload_appPackage_overrides_witness :
  exists resp,
    handleGetReviews (SpecRepo.reviewsRepository true)
      (Examples.getReviews "com.alpha"
         (Some (ReviewFilter.withAppPackage (Some "com.beta") ReviewFilter.empty)))
      Examples.twoAppStore
    = (Ok resp, Examples.twoAppStore)
    /\ List.map Review.id (reviews resp) = ["b1"; "b2"]
    /\ (forall r, In r (reviews resp) -> Review.appPackage r = "com.beta")
    /\ total (pagination resp) = 1.
Proof.
  eexists. split; [vm_compute; reflexivity|].
  split; [reflexivity|].
  pose proof (get_reviews_payload_appPackage_overrides true
                (Examples.getReviews "com.alpha"
                   (Some (ReviewFilter.withAppPackage (Some "com.beta")
                                                      ReviewFilter.empty)))
                Examples.twoAppStore Examples.twoAppStore
                "com.alpha" "com.beta" _ _ eq_refl eq_refl eq_refl eq_refl)
    as [Hsel Htot].
  split; [intros r Hin; exact (proj2 (Hsel r Hin)) | exact Htot].
Defined.

(** For any repository, what [googleplay://reviews/P/R] yields is decided by
    [findById R]; [P] appears in the echoed URI only. *)
Lemma specific_review_resource_by_findById
      (repo : ReviewsRepository) (P R : string) (st : Store) :
  handleSpecificReviewResource repo P R st
  = match findById repo R st with
    | (Ok (Some r), st') =>
        (Ok {| uri := "googleplay://reviews/" ++ P ++ "/" ++ R;
               mimeType := "application/json";
               body := r |}, st')
    | (Ok None, st') =>
        (Err (McpError InvalidRequest ("Review not found: " ++ R)), st')
    | (Err e, st') => (Err e, st')
    end.
Proof.
  unfold handleSpecificReviewResource, bind.
  destruct (findById repo R st) as [[[r|]|e] st']; reflexivity.
Qed.

(** C10. [googleplay://reviews/P/R] returns a review whose [id] is [R]
    whenever the store holds one, whatever its [appPackage] and whatever
    [P], which only shows in the URI; the read fails, with "Review not
    found", exactly when no review of the store has [id] [R]. *)
Theorem specific_review_resource_ignores_appPackage
        (rangeChecked : bool) (R : string) (st : Store) :
  ((exists r, In r (allReviews st) /\ Review.id r = R) ->
   exists r,
     In r (allReviews st) /\ Review.id r = R
     /\ forall P,
         handleSpecificReviewResource (SpecRepo.reviewsRepository rangeChecked)
                                      P R st
         = (Ok {| uri := "googleplay://reviews/" ++ P ++ "/" ++ R;
                  mimeType := "application/json";
                  body := r |}, st))
  /\ ((forall r, In r (allReviews st) -> Review.id r <> R) ->
      forall P,
        handleSpecificReviewResource (SpecRepo.reviewsRepository rangeChecked)
                                     P R st
        = (Err (McpError InvalidRequest ("Review not found: " ++ R)), st)).
Proof.
  split.
  - intros [r [Hin Hid]].
    destruct (SpecRepo.lookup R (allReviews st)) as [r0|] eqn:El.
    2:{ rewrite lookup_None in El. now elim (El r Hin). }
    destruct (lookup_Some _ _ _ El) as [Hin0 Hid0].
    exists r0. repeat split; try assumption.
    intros P. rewrite specific_review_resource_by_findById.
    cbn [findById SpecRepo.reviewsRepository]. unfold SpecRepo.findById.
    now rewrite El.
  - intros Hnone P. rewrite specific_review_resource_by_findById.
    cbn [findById SpecRepo.reviewsRepository]. unfold SpecRepo.findById.
    apply lookup_None in Hnone. now rewrite Hnone.
Qed.

Lemma specific_review_resource_ignores_appPackage_witness :
  exists r,
    In r (allReviews Examples.twoAppStore) /\ Review.id r = "b1"
    /\ forall P,
        handleSpecificReviewResource (SpecRepo.reviewsRepository true)
                                     P "b1" Examples.twoAppStore
        = (Ok {| uri := "googleplay://reviews/" ++ P ++ "/" ++ "b1";
                 mimeType := "application/json";
                 body := r |}, Examples.twoAppStore).
Proof.
  apply (proj1 (specific_review_resource_ignores_appPackage
                  true "b1" Examples.twoAppStore)).
  exists (Examples.review "b1" "com.beta" 2 "Slow").
  split; [simpl; auto | reflexivity].
Defined.

(* ------------------------------------------------------------------ *)
(** ** Text search *)

Lemma includes_lower_iff (s q : string) :
  Js.includes (Js.toLowerCase s) (Js.toLowerCase q) = true
  <-> containsIgnoreCase s q.
Proof. apply includes_iff. Qed.

Lemma containsIgnoreCase_empty_text (s q : string) :
  containsIgnoreCase "" q -> containsIgnoreCase s q.
Proof.
  intros [a [b H]]. simpl in H. symmetry in H.
  apply append_empty_inv in H. destruct H as [_ H].
  apply append_empty_inv in H. destruct H as [H _].
  exists "", (Js.toLowerCase s). now rewrite H.
Qed.

(** [queryFilter] holds of a review exactly when the query occurs, case
    ignored, in its text or in its title. *)
Lemma queryFilter_iff (q : string) (r : Review.t) :
  queryFilter (Js.toLowerCase q) r = true
  <-> containsIgnoreCase (Review.text r) q
      \/ exists t, Review.title r = Some t /\ containsIgnoreCase t q.
Proof.
  unfold queryFilter. rewrite orb_true_iff, includes_lower_iff.
  split.
  - intros [H|H]; [now left|].
    destruct (Review.title r) as [t|]; [|discriminate].
    apply andb_true_iff in H. destruct H as [_ H].
    right. exists t. split; [reflexivity | now apply includes_lower_iff].
  - intros [H|[t [Et H]]]; [now left|].
    rewrite Et.
    destruct (String.eqb_spec t "") as [->|Hne].
    + left. now apply containsIgnoreCase_empty_text.
    + right. simpl. now apply includes_lower_iff.
Qed.

Lemma slice_incl {A} (l : list A) (a b : Z) (x : A) :
  In x (Js.slice l a b) -> In x l.
Proof.
  unfold Js.slice. intros H. apply In_firstn in H. now apply In_skipn in H.
Qed.

Lemma slice_whole {A} (l : list A) (n : Z) :
  Z.of_nat (List.length l) <= n -> Js.slice l 0 n = l.
Proof.
  intros H. unfold Js.slice.
  change (0 <? 0) with false. cbv iota.
  destruct (Z.ltb_spec n 0) as [Hn|Hn]; [lia|].
  rewrite (Z.min_l 0) by lia. rewrite (Z.min_r n) by lia.
  change (Z.to_nat 0) with 0%nat. simpl skipn.
  rewrite Z.sub_0_r, Z.max_l by lia. rewrite Nat2Z.id.
  apply firstn_all.
Qed.

(** Relative to the batch that [find] returns, the search keeps exactly
    the reviews that belong to the requested app (when one is given) and
    in whose text, or title when there is one, the query occurs as a
    substring, case ignored.  The kept reviews are counted in [total] and
    the response carries their page. *)
Theorem search_keeps_case_insensitive_matches
        (repo : ReviewsRepository) (args : SearchReviewsArgs.t)
        (st st' : Store) (q : string) (batch : list Review.t) :
  SearchReviewsArgs.query args = Js.Str q ->
  find repo (searchBatchFilter args) st = (Ok batch, st') ->
  exists resp kept,
    handleSearchReviews repo args st = (Ok resp, st')
    /\ (forall r,
           In r kept <->
           In r batch
           /\ appPackageFilter args r = true
           /\ (containsIgnoreCase (Review.text r) q
               \/ exists t, Review.title r = Some t /\ containsIgnoreCase t q))
    /\ total (pagination resp) = Z.of_nat (List.length kept)
    /\ reviews resp
       = Js.slice kept (Js.orDefault (SearchReviewsArgs.offset args) 0)
                  (Js.orDefault (SearchReviewsArgs.offset args) 0
                   + Js.orDefault (SearchReviewsArgs.limit args) 20)
    /\ (Js.orDefault (SearchReviewsArgs.offset args) 0 = 0 ->
        Z.of_nat (List.length kept)
        <= Js.orDefault (SearchReviewsArgs.limit args) 20 ->
        reviews resp = kept).
Proof.
  intros Hq Hfind.
  exists {| reviews :=
              Js.slice (List.filter (combinedFilter args (Js.toLowerCase q)) batch)
                       (Js.orDefault (SearchReviewsArgs.offset args) 0)
                       (Js.orDefault (SearchReviewsArgs.offset args) 0
                        + Js.orDefault (SearchReviewsArgs.limit args) 20);
            pagination :=
              {| total := Z.of_nat
                            (List.length
                               (List.filter
                                  (combinedFilter args (Js.toLowerCase q)) batch));
                 limit := Js.orDefault (SearchReviewsArgs.limit args) 20;
                 offset := Js.orDefault (SearchReviewsArgs.offset args) 0;
                 hasMore :=
                   Js.orDefault (SearchReviewsArgs.offset args) 0
                   + Js.orDefault (SearchReviewsArgs.limit args) 20
                   <? Z.of_nat
                        (List.length
                           (List.filter
                              (combinedFilter args (Js.toLowerCase q)) batch)) |} |}.
  exists (List.filter (combinedFilter args (Js.toLowerCase q)) batch).
  split.
  { unfold handleSearchReviews. rewrite Hq. unfold bind. now rewrite Hfind. }
  split.
  { intros r. rewrite filter_In. unfold combinedFilter.
    rewrite andb_true_iff, queryFilter_iff. tauto. }
  split; [reflexivity|].
  split; [reflexivity|].
  intros Hoff Hlen. cbn [reviews]. rewrite Hoff, Z.add_0_l.
  now apply slice_whole.
Qed.

Lemma search_keeps_case_insensitive_matches_witness :
  exists resp,
    handleSearchReviews (SpecRepo.reviewsRepository false)
                        (Examples.search "crash") Examples.exampleStore
    = (Ok resp, Examples.exampleStore)
    /\ List.map Review.text (reviews resp) = ["Crash!! on start"]
    /\ total (pagination resp) = 1.
Proof.
  destruct (search_keeps_case_insensitive_matches
              (SpecRepo.reviewsRepository false) (Examples.search "crash")
              Examples.exampleStore Examples.exampleStore "crash"
              (allReviews Examples.exampleStore) eq_refl eq_refl)
    as [resp [kept [H _]]].
  exists resp. split; [exact H|].
  vm_compute in H. injection H as H. subst resp.
  split; reflexivity.
Defined.

(** With the repository model, the batch that the search works on has at
    most 1000 reviews, so no search reports a [total] above 1000. *)
Lemma search_total_at_most_batch
      (args : SearchReviewsArgs.t) (st st' : Store) (resp : ReviewsResponse) :
  handleSearchReviews (SpecRepo.reviewsRepository false) args st = (Ok resp, st') ->
  total (pagination resp) <= 1000.
Proof.
  unfold handleSearchReviews.
  destruct (SearchReviewsArgs.query args); try discriminate.
  unfold bind. cbn [find SpecRepo.reviewsRepository].
  unfold SpecRepo.find. cbn [andb]. unfold ret.
  intros H. injection H as H _. subst resp. cbn [pagination total].
  pose proof (filter_length_le (combinedFilter args (Js.toLowerCase s))
                (SpecRepo.window (SpecRepo.offsetOf (searchBatchFilter args))
                   (SpecRepo.limitOf (searchBatchFilter args))
                   (SpecRepo.matching (searchBatchFilter args) st))) as Hle.
  pose proof (window_length (SpecRepo.offsetOf (searchBatchFilter args)) 1000
                (SpecRepo.matching (searchBatchFilter args) st) ltac:(lia)) as Hw.
  change (SpecRepo.limitOf (searchBatchFilter args)) with 1000 in Hle |- *.
  lia.
Qed.

(** With the range check of the specification's [find], the batch request
    of the search ([limit: 1000]) is itself out of range. *)
Lemma search_batch_out_of_range
      (args : SearchReviewsArgs.t) (st : Store) (q : string) :
  SearchReviewsArgs.query args = Js.Str q ->
  handleSearchReviews (SpecRepo.reviewsRepository true) args st
  = (Err (RepositoryError InvalidArgument), st).
Proof.
  intros Hq. unfold handleSearchReviews. rewrite Hq. reflexivity.
Qed.

(** C2. The text search should run over the whole candidate set and
    [total] and [hasMore] should describe all matches.  The handler runs
    it over the batch of at most 1000 reviews that [find] returns for
    [limit: 1000, offset: 0].  On the store of 1001 reviews that all
    contain the word, the search for [crash] reports [total = 1000]; run
    over every review that passes the other filters it would be 1001. *)
Theorem search_total_capped_by_batch :
  match handleSearchReviews (SpecRepo.reviewsRepository false)
                            (Examples.search "crash") Examples.bigStore with
  | (Ok resp, _) =>
      total (pagination resp) = 1000
      /\ hasMore (pagination resp) = true
      /\ fullSearchTotal (Examples.search "crash") "crash" Examples.bigStore
         = 1001
  | (Err _, _) => False
  end.
Proof.
  vm_compute. repeat split.
Qed.

Lemma window_covers {A} (n : Z) (l : list A) :
  Z.of_nat (List.length l) <= n -> SpecRepo.window 0 n l = l.
Proof.
  intros H. unfold SpecRepo.window. simpl skipn.
  change (Z.to_nat 0) with 0%nat. rewrite Nat.sub_0_r.
  apply firstn_all2. lia.
Qed.

(** With the repository model and at most 1000 reviews passing the other
    filters, the reviews kept by the search are exactly the reviews of the
    store that pass the filters, belong to the requested app and contain
    the query. *)
Lemma search_keeps_all_matches_within_batch
      (args : SearchReviewsArgs.t) (st : Store) (q : string) (r : Review.t) :
  Z.of_nat (List.length (SpecRepo.matching (searchBatchFilter args) st)) <= 1000 ->
  In r (List.filter (combinedFilter args (Js.toLowerCase q))
          (SpecRepo.window 0 1000 (SpecRepo.matching (searchBatchFilter args) st)))
  <-> In r (allReviews st)
      /\ SpecRepo.matches r (searchBatchFilter args) = true
      /\ appPackageFilter args r = true
      /\ (containsIgnoreCase (Review.text r) q
          \/ exists t, Review.title r = Some t /\ containsIgnoreCase t q).
Proof.
  intros Hlen. rewrite window_covers by exact Hlen.
  rewrite filter_In, matching_In. unfold combinedFilter.
  rewrite andb_true_iff, queryFilter_iff. tauto.
Qed.

(* ------------------------------------------------------------------ *)
(** ** Routing of resource reads *)

Lemma append_cancel_l (p a b : string) : p ++ a = p ++ b -> a = b.
Proof.
  induction p as [|c p IH]; simpl; intros H; [exact H|].
  injection H as H. now apply IH.
Qed.

Lemma stripPrefix_iff (p s r : string) :
  stripPrefix p s = Some r <-> s = p ++ r.
Proof.
  revert s. induction p as [|a p IH]; intros s; simpl.
  - split; intros H; [now injection H as -> | now subst].
  - destruct s as [|b s]; [split; discriminate|].
    destruct (Ascii.eqb_spec a b) as [->|Hne].
    + rewrite IH. split; intros H; [now subst | now injection H].
    + split; [discriminate | intros H; injection H as H _; congruence].
Qed.

Lemma noSlash_iff (s : string) :
  noSlash s = true <-> forall a b, s <> a ++ "/" ++ b.
Proof.
  induction s as [|c s IH]; simpl.
  - split; [|reflexivity]. intros _ a b H. destruct a; discriminate.
  - rewrite andb_true_iff, IH. split.
    + intros [Hc Hs] a b H. destruct a as [|c' a]; simpl in H.
      * injection H as -> _. discriminate.
      * injection H as _ H. now apply (Hs a b).
    + intros H. split.
      * destruct (Ascii.eqb_spec c "/"%char) as [->|_]; [|reflexivity].
        now elim (H "" s).
      * intros a b Hs. apply (H (String c a) b). simpl. now rewrite Hs.
Qed.

Lemma isSegment_iff (s : string) : isSegment s = true <-> Segment s.
Proof.
  unfold isSegment, Segment. rewrite andb_true_iff, noSlash_iff.
  destruct (String.eqb_spec s ""); simpl; split; intros [H1 H2];
    split; auto; discriminate.
Qed.

Lemma splitAtSlash_iff (s a b : string) :
  splitAtSlash s = Some (a, b) <-> s = a ++ "/" ++ b /\ noSlash a = true.
Proof.
  revert a. induction s as [|c s IH]; intros a; simpl.
  - split; [discriminate|]. intros [H _]. destruct a; discriminate.
  - destruct (Ascii.eqb_spec c "/"%char) as [->|Hc].
    + split.
      * intros H. injection H as <- <-. now split.
      * intros [H Ha]. destruct a as [|c' a]; simpl in H.
        -- now injection H as ->.
        -- injection H as <- _. simpl in Ha. discriminate.
    + destruct (splitAtSlash s) as [[a' b']|] eqn:E.
      * split.
        -- intros H. injection H as <- <-.
           destruct (proj1 (IH a') eq_refl) as [-> Ha]. split; [reflexivity|].
           simpl. rewrite Ha.
           destruct (Ascii.eqb_spec c "/"%char); [contradiction | reflexivity].
        -- intros [H Ha]. destruct a as [|c' a]; simpl in H.
           ++ injection H as H _. contradiction.
           ++ injection H as <- H. simpl in Ha.
              apply andb_true_iff in Ha. destruct Ha as [_ Ha].
              assert (Some (a', b') = Some (a, b)) as Hs
                  by (apply IH; now split).
              now injection Hs as -> ->.
      * split; [discriminate|]. intros [H Ha].
        destruct a as [|c' a]; simpl in H.
        -- injection H as H _. contradiction.
        -- injection H as <- H. simpl in Ha.
           apply andb_true_iff in Ha. destruct Ha as [_ Ha].
           assert (None = Some (a, b)) as Hs by (apply IH; now split).
           discriminate.
Qed.

Lemma matchSegment_iff (p uri seg : string) :
  matchSegment p uri = Some seg <-> uri = p ++ seg /\ Segment seg.
Proof.
  unfold matchSegment. split.
  - destruct (stripPrefix p uri) as [r|] eqn:E; [|discriminate].
    destruct (isSegment r) eqn:Er; [|discriminate].
    intros H. injection H as <-.
    split; [now apply stripPrefix_iff | now apply isSegment_iff].
  - intros [Hu Hs]. apply stripPrefix_iff in Hu. rewrite Hu.
    apply isSegment_iff in Hs. now rewrite Hs.
Qed.

Lemma matchTwoSegments_iff (p uri a b : string) :
  matchTwoSegments p uri = Some (a, b)
  <-> uri = p ++ a ++ "/" ++ b /\ Segment a /\ Segment b.
Proof.
  unfold matchTwoSegments. split.
  - destruct (stripPrefix p uri) as [r|] eqn:E; [|discriminate].
    destruct (splitAtSlash r) as [[a' b']|] eqn:Es; [|discriminate].
    destruct (isSegment a' && isSegment b') eqn:Eseg; [|discriminate].
    intros H. injection H as <- <-.
    apply andb_true_iff in Eseg. destruct Eseg as [Ha Hb].
    apply stripPrefix_iff in E. apply splitAtSlash_iff in Es.
    destruct Es as [-> _].
    repeat split; try (now apply isSegment_iff). exact E.
  - intros [Hu [Ha Hb]].
    assert (E : stripPrefix p uri = Some (a ++ "/" ++ b))
      by now apply stripPrefix_iff.
    rewrite E.
    assert (Es : splitAtSlash (a ++ "/" ++ b) = Some (a, b)).
    { apply splitAtSlash_iff. split; [reflexivity|].
      apply noSlash_iff. exact (proj2 Ha). }
    rewrite Es.
    apply isSegment_iff in Ha. apply isSegment_iff in Hb.
    now rewrite Ha, Hb.
Qed.

Lemma matchSegment_with_slash (p a b : string) :
  matchSegment p (p ++ a ++ "/" ++ b) = None.
Proof.
  destruct (matchSegment p (p ++ a ++ "/" ++ b)) as [seg|] eqn:E; [|reflexivity].
  apply matchSegment_iff in E. destruct E as [Hu [_ Hs]].
  apply append_cancel_l in Hu. now elim (Hs a b).
Qed.

(** The app-reviews route of [readResource]. *)
Lemma read_resource_app_reviews_route
      (repo : ReviewsRepository) (apps : AppsRepository)
      (decode : string -> option string) (P P' : string) :
  Segment P -> decode P = Some P' ->
  readResource repo apps decode ("googleplay://reviews/" ++ P)
  = settle AppReviewsContents (handleAppReviewsResource repo P').
Proof.
  intros HP Hd. unfold readResource.
  change (("googleplay://reviews/" ++ P =? "googleplay://apps")%string) with false.
  change (("googleplay://reviews/" ++ P =? "googleplay://stats")%string) with false.
  cbv iota.
  rewrite (proj2 (matchSegment_iff _ _ P) (conj eq_refl HP)). now rewrite Hd.
Qed.

(** X1. Every advertised resource and every instance of an advertised
    resource template is served by the handler it is named after, with the
    decoded segments as arguments: the patterns do not overlap, so the
    order in which they are tried never sends a URI elsewhere. *)
Theorem read_resource_serves_templates
        (repo : ReviewsRepository) (apps : AppsRepository)
        (decode : string -> option string) :
  readResource repo apps decode "googleplay://apps"
  = settle AppsContents (handleAppsResource apps)
  /\ readResource repo apps decode "googleplay://stats"
     = settle StatsContents handleStatsResource
  /\ (forall P P',
         Segment P -> decode P = Some P' ->
         readResource repo apps decode ("googleplay://reviews/" ++ P)
         = settle AppReviewsContents (handleAppReviewsResource repo P'))
  /\ (forall P R P' R',
         Segment P -> Segment R -> decode P = Some P' -> decode R = Some R' ->
         readResource repo apps decode ("googleplay://reviews/" ++ P ++ "/" ++ R)
         = settle SpecificReviewContents
                  (handleSpecificReviewResource repo P' R'))
  /\ (forall P P',
         Segment P -> decode P = Some P' ->
         readResource repo apps decode ("googleplay://stats/" ++ P)
         = settle AppStatsContents (handleAppStatsResource apps P')).
Proof.
  split; [reflexivity|]. split; [reflexivity|]. split; [|split].
  - intros P P' HP Hd. unfold readResource.
    change (("googleplay://reviews/" ++ P =? "googleplay://apps")%string) with false.
    change (("googleplay://reviews/" ++ P =? "googleplay://stats")%string) with false.
    cbv iota.
    rewrite (proj2 (matchSegment_iff _ _ P) (conj eq_refl HP)). now rewrite Hd.
  - intros P R P' R' HP HR HdP HdR. unfold readResource.
    change (("googleplay://reviews/" ++ P ++ "/" ++ R =? "googleplay://apps")%string)
      with false.
    change (("googleplay://reviews/" ++ P ++ "/" ++ R =? "googleplay://stats")%string)
      with false.
    cbv iota.
    rewrite matchSegment_with_slash.
    rewrite (proj2 (matchTwoSegments_iff _ _ P R) (conj eq_refl (conj HP HR))).
    now rewrite HdP, HdR.
  - intros P P' HP Hd. unfold readResource.
    destruct P as [|c P]; [now elim (proj1 HP)|].
    assert (Hc : c <> "/"%char).
    { intros ->. now elim (proj2 HP "" P). }
    replace (("googleplay://stats/" ++ String c P =? "googleplay://apps")%string)
      with false by reflexivity.
    replace (("googleplay://stats/" ++ String c P =? "googleplay://stats")%string)
      with false by reflexivity.
    replace (matchSegment "googleplay://reviews/" ("googleplay://stats/" ++ String c P))
      with (@None string) by reflexivity.
    replace (matchTwoSegments "googleplay://reviews/"
               ("googleplay://stats/" ++ String c P))
      with (@None (string * string)) by reflexivity.
    rewrite (proj2 (matchSegment_iff _ _ (String c P)) (conj eq_refl HP)).
    now rewrite Hd.
Qed.

Lemma read_resource_serves_templates_witness :
  readResource (SpecRepo.reviewsRepository false) SpecRepo.appsRepository
               decodeUnescaped "googleplay://reviews/com.beta/b1"
  = settle SpecificReviewContents
           (handleSpecificReviewResource (SpecRepo.reviewsRepository false)
                                         "com.beta" "b1")
  /\ readResource (SpecRepo.reviewsRepository false) SpecRepo.appsRepository
                  decodeUnescaped "googleplay://stats/com.beta"
     = settle AppStatsContents
              (handleAppStatsResource SpecRepo.appsRepository "com.beta").
Proof.
  pose proof (read_resource_serves_templates
                (SpecRepo.reviewsRepository false) SpecRepo.appsRepository
                decodeUnescaped) as [_ [_ [_ [H2 H1]]]].
  assert (Sbeta : Segment "com.beta")
    by (apply isSegment_iff; reflexivity).
  assert (Sb1 : Segment "b1") by (apply isSegment_iff; reflexivity).
  split.
  - exact (H2 "com.beta" "b1" "com.beta" "b1" Sbeta Sb1 eq_refl eq_refl).
  - exact (H1 "com.beta" "com.beta" Sbeta eq_refl).
Defined.

(** X2. A URI that is none of the five shapes is rejected with
    [InvalidRequest] and the message "Invalid URI format: <uri>"; no
    handler runs and the store is untouched.  This holds, for instance, of
    a template with an empty segment. *)
Theorem read_resource_rejects_other_uris
        (repo : ReviewsRepository) (apps : AppsRepository)
        (decode : string -> option string) (uri : string) (st : Store) :
  uri <> "googleplay://apps" ->
  uri <> "googleplay://stats" ->
  (forall P, Segment P -> uri <> "googleplay://reviews/" ++ P) ->
  (forall P R, Segment P -> Segment R ->
               uri <> "googleplay://reviews/" ++ P ++ "/" ++ R) ->
  (forall P, Segment P -> uri <> "googleplay://stats/" ++ P) ->
  readResource repo apps decode uri st
  = (Rejected (McpError InvalidRequest ("Invalid URI format: " ++ uri)), st).
Proof.
  intros Happs Hstats H1 H2 H3. unfold readResource.
  destruct (String.eqb_spec uri "googleplay://apps"); [contradiction|].
  destruct (String.eqb_spec uri "googleplay://stats"); [contradiction|].
  destruct (matchSegment "googleplay://reviews/" uri) as [seg|] eqn:E1.
  { apply matchSegment_iff in E1. destruct E1 as [Hu Hs]. now elim (H1 seg Hs). }
  destruct (matchTwoSegments "googleplay://reviews/" uri) as [[a b]|] eqn:E2.
  { apply matchTwoSegments_iff in E2. destruct E2 as [Hu [Ha Hb]].
    now elim (H2 a b Ha Hb). }
  destruct (matchSegment "googleplay://stats/" uri) as [seg|] eqn:E3.
  { apply matchSegment_iff in E3. destruct E3 as [Hu Hs]. now elim (H3 seg Hs). }
  reflexivity.
Qed.

Lemma read_resource_rejects_other_uris_witness :
  readResource (SpecRepo.reviewsRepository false) SpecRepo.appsRepository
               decodeUnescaped "googleplay://reviews/" Examples.twoAppStore
  = (Rejected (McpError InvalidRequest
                        "Invalid URI format: googleplay://reviews/"),
     Examples.twoAppStore).
Proof.
  apply (read_resource_rejects_other_uris
           (SpecRepo.reviewsRepository false) SpecRepo.appsRepository
           decodeUnescaped "googleplay://reviews/" Examples.twoAppStore).
  - discriminate.
  - discriminate.
  - intros P [HP _] H. apply (append_cancel_l "googleplay://reviews/" "" P) in H.
    now subst P.
  - intros P R [HP _] _ H.
    apply (append_cancel_l "googleplay://reviews/" "" (P ++ "/" ++ R)) in H.
    destruct P; [now elim HP | discriminate].
  - intros P _ H. discriminate.
Defined.

(** X3. When [decodeURIComponent] throws on a captured segment, the read
    fails with that [URIError], not with an [McpError]; no handler runs
    and the store is untouched. *)
Theorem read_resource_decode_failure
        (repo : ReviewsRepository) (apps : AppsRepository)
        (decode : string -> option string) (st : Store) :
  (forall P, Segment P -> decode P = None ->
             readResource repo apps decode ("googleplay://reviews/" ++ P) st
             = (RejectedNative URIError, st))
  /\ (forall P R, Segment P -> Segment R ->
                  decode P = None \/ decode R = None ->
                  readResource repo apps decode
                               ("googleplay://reviews/" ++ P ++ "/" ++ R) st
                  = (RejectedNative URIError, st)).
Proof.
  split.
  - intros P HP Hd. unfold readResource.
    change (("googleplay://reviews/" ++ P =? "googleplay://apps")%string) with false.
    change (("googleplay://reviews/" ++ P =? "googleplay://stats")%string) with false.
    cbv iota.
    rewrite (proj2 (matchSegment_iff _ _ P) (conj eq_refl HP)). now rewrite Hd.
  - intros P R HP HR Hd. unfold readResource.
    change (("googleplay://reviews/" ++ P ++ "/" ++ R =? "googleplay://apps")%string)
      with false.
    change (("googleplay://reviews/" ++ P ++ "/" ++ R =? "googleplay://stats")%string)
      with false.
    cbv iota.
    rewrite matchSegment_with_slash.
    rewrite (proj2 (matchTwoSegments_iff _ _ P R) (conj eq_refl (conj HP HR))).
    destruct Hd as [Hd|Hd]; rewrite Hd; [reflexivity|].
    now destruct (decode P).
Qed.

Lemma read_resource_decode_failure_witness :
  readResource (SpecRepo.reviewsRepository false) SpecRepo.appsRepository
               (fun _ => None) "googleplay://reviews/%E0%A4%A"
               Examples.twoAppStore
  = (RejectedNative URIError, Examples.twoAppStore).
Proof.
  apply (proj1 (read_resource_decode_failure
                  (SpecRepo.reviewsRepository false) SpecRepo.appsRepository
                  (fun _ => None) Examples.twoAppStore) "%E0%A4%A").
  - apply isSegment_iff. reflexivity.
  - reflexivity.
Defined.

(* ------------------------------------------------------------------ *)
(** ** Dispatch of tool calls *)

(** X4. A tool name that [ListTools] does not advertise is answered with
    [MethodNotFound] and the message "Unknown tool: <name>", whatever the
    arguments (even none); no handler runs and the store is untouched.
    Names are compared exactly, so a listed name in another case is
    unknown. *)
Theorem call_tool_unknown_name
        (repo : ReviewsRepository) (name : string) (args : option ToolArgs.t)
        (st : Store) :
  ~ In name listedTools ->
  callTool repo name args st
  = (Rejected (McpError MethodNotFound ("Unknown tool: " ++ name)), st).
Proof.
  intros H. unfold callTool, listedTools in *. simpl in H.
  destruct (String.eqb_spec name "get_reviews"); [subst; tauto|].
  destruct (String.eqb_spec name "post_reply"); [subst; tauto|].
  destruct (String.eqb_spec name "search_reviews"); [subst; tauto|].
  reflexivity.
Qed.

Lemma call_tool_unknown_name_witness :
  callTool (SpecRepo.reviewsRepository false) "Get_Reviews" None
           Examples.exampleStore
  = (Rejected (McpError MethodNotFound "Unknown tool: Get_Reviews"),
     Examples.exampleStore).
Proof.
  apply (call_tool_unknown_name (SpecRepo.reviewsRepository false)
                                "Get_Reviews" None Examples.exampleStore).
  simpl. intros [H|[H|[H|H]]]; try discriminate; exact H.
Defined.

(** X5. A call of an advertised tool without an [arguments] object fails
    with a [TypeError] of the runtime, not with [InvalidParams]; the
    repository is not used and the store is untouched. *)
Theorem call_tool_without_arguments
        (repo : ReviewsRepository) (name : string) (st : Store) :
  In name listedTools ->
  callTool repo name None st = (RejectedNative TypeError, st).
Proof.
  unfold listedTools. simpl.
  intros [<-|[<-|[<-|[]]]]; reflexivity.
Qed.

Lemma call_tool_without_arguments_witness :
  callTool (SpecRepo.reviewsRepository false) "post_reply" None
           Examples.exampleStore
  = (RejectedNative TypeError, Examples.exampleStore).
Proof.
  apply (call_tool_without_arguments (SpecRepo.reviewsRepository false)
                                     "post_reply" Examples.exampleStore).
  simpl. auto.
Defined.

(** X6. [get_reviews] and [search_reviews] reject an [appPackage], or a
    [query], that is not a string with [InvalidParams] before the
    repository is used: the outcome is the same for every repository and
    the store is untouched. *)
Theorem tools_reject_non_string_argument
        (repo : ReviewsRepository) (v : Js.value) (st : Store) :
  (forall s, v <> Js.Str s) ->
  (forall payload,
      handleGetReviews repo
        {| GetReviewsArgs.appPackage := v; GetReviewsArgs.filter := payload |} st
      = (Err (McpError InvalidParams "appPackage must be a string"), st))
  /\ (forall ap payload l o,
         handleSearchReviews repo
           {| SearchReviewsArgs.query := v;
              SearchReviewsArgs.appPackage := ap;
              SearchReviewsArgs.filter := payload;
              SearchReviewsArgs.limit := l;
              SearchReviewsArgs.offset := o |} st
         = (Err (McpError InvalidParams "query must be a string"), st)).
Proof.
  intros Hv. split; intros; destruct v; try reflexivity; now elim (Hv s).
Qed.

Lemma tools_reject_non_string_argument_witness :
  handleGetReviews (SpecRepo.reviewsRepository false)
    {| GetReviewsArgs.appPackage := Js.Num 42;
       GetReviewsArgs.filter := Some Examples.minRating5 |}
    Examples.exampleStore
  = (Err (McpError InvalidParams "appPackage must be a string"),
     Examples.exampleStore).
Proof.
  apply (proj1 (tools_reject_non_string_argument
                  (SpecRepo.reviewsRepository false) (Js.Num 42)
                  Examples.exampleStore (fun s H => ltac:(discriminate H)))).
Defined.

(* ------------------------------------------------------------------ *)
(** ** [post_reply] *)

(** X7. [post_reply] checks [reviewId] before [replyText]: a [reviewId]
    that is not a string is reported as such whatever [replyText] is, and
    a [replyText] that is not a string is reported only when [reviewId] is
    one.  Both are [InvalidParams], raised before the repository is used,
    with the store untouched. *)
Theorem post_reply_checks_reviewId_first
        (repo : ReviewsRepository) (rid txt : Js.value) (st : Store) :
  ((forall s, rid <> Js.Str s) ->
   handlePostReply repo
     {| PostReplyArgs.reviewId := rid; PostReplyArgs.replyText := txt |} st
   = (Err (McpError InvalidParams "reviewId must be a string"), st))
  /\ ((exists s, rid = Js.Str s) -> (forall s, txt <> Js.Str s) ->
      handlePostReply repo
        {| PostReplyArgs.reviewId := rid; PostReplyArgs.replyText := txt |} st
      = (Err (McpError InvalidParams "replyText must be a string"), st)).
Proof.
  split.
  - intros H. destruct rid; try reflexivity. now elim (H s).
  - intros [s ->] H. destruct txt; try reflexivity. now elim (H s0).
Qed.

Lemma post_reply_checks_reviewId_first_witness :
  handlePostReply (SpecRepo.reviewsRepository false)
    {| PostReplyArgs.reviewId := Js.Undefined;
       PostReplyArgs.replyText := Js.Num 7 |} Examples.exampleStore
  = (Err (McpError InvalidParams "reviewId must be a string"),
     Examples.exampleStore)
  /\ handlePostReply (SpecRepo.reviewsRepository false)
       {| PostReplyArgs.reviewId := Js.Str "r1";
          PostReplyArgs.replyText := Js.Null |} Examples.exampleStore
     = (Err (McpError InvalidParams "replyText must be a string"),
        Examples.exampleStore).
Proof.
  split.
  - apply (proj1 (post_reply_checks_reviewId_first
                    (SpecRepo.reviewsRepository false) Js.Undefined (Js.Num 7)
                    Examples.exampleStore)).
    intros s H. discriminate H.
  - apply (proj2 (post_reply_checks_reviewId_first
                    (SpecRepo.reviewsRepository false) (Js.Str "r1") Js.Null
                    Examples.exampleStore)).
    + now exists "r1".
    + intros s H. discriminate H.
Defined.

(** X8. What a successful [post_reply] guarantees, for any repository:
    both arguments were strings, the text had at most 350 characters,
    [addReply] returned [true], and the [replyId] and [timestamp] of the
    response are those of the [replyData] that [findById] then returned
    for the same [reviewId]; [success] is [true]. *)
Theorem post_reply_success_reports_stored_reply
        (repo : ReviewsRepository) (args : PostReplyArgs.t)
        (st st' : Store) (resp : ReplyResponse.t) :
  handlePostReply repo args st = (Ok resp, st') ->
  exists rid msg st1 r rd,
    PostReplyArgs.reviewId args = Js.Str rid
    /\ PostReplyArgs.replyText args = Js.Str msg
    /\ (String.length msg <= 350)%nat
    /\ addReply repo rid msg st = (Ok true, st1)
    /\ findById repo rid st1 = (Ok (Some r), st')
    /\ Review.replyData r = Some rd
    /\ resp = {| ReplyResponse.success := true;
                 ReplyResponse.replyId := replyId rd;
                 ReplyResponse.timestamp := replyDate rd |}.
Proof.
  unfold handlePostReply.
  destruct (PostReplyArgs.reviewId args) as [| | | |rid|]; try discriminate.
  destruct (PostReplyArgs.replyText args) as [| | | |msg|]; try discriminate.
  destruct (350 <? String.length msg)%nat eqn:Elen; [discriminate|].
  unfold bind.
  destruct (addReply repo rid msg st) as [[[|]|e] st1] eqn:Ea; try discriminate.
  cbn [negb].
  destruct (findById repo rid st1) as [[[r|]|e] st2] eqn:Ef; try discriminate.
  destruct (Review.replyData r) as [rd|] eqn:Er; [|discriminate].
  unfold ret. intros H. injection H as <- <-.
  exists rid, msg, st1, r, rd.
  apply Nat.ltb_ge in Elen. repeat split; assumption.
Qed.

Lemma post_reply_success_reports_stored_reply_witness :
  exists resp st',
    handlePostReply (SpecRepo.reviewsRepository false)
      {| PostReplyArgs.reviewId := Js.Str "r2";
         PostReplyArgs.replyText := Js.Str "Sorry about that" |}
      Examples.exampleStore
    = (Ok resp, st')
    /\ ReplyResponse.replyId resp = "reply-0"
    /\ ReplyResponse.timestamp resp = "2025-04-01T09:30:00Z".
Proof.
  do 2 eexists. split; [vm_compute; reflexivity|].
  destruct (post_reply_success_reports_stored_reply
              (SpecRepo.reviewsRepository false)
              {| PostReplyArgs.reviewId := Js.Str "r2";
                 PostReplyArgs.replyText := Js.Str "Sorry about that" |}
              Examples.exampleStore _ _ eq_refl)
    as [rid [msg [st1 [r [rd [_ [_ [_ [_ [_ [_ Hresp]]]]]]]]]]].
  split; reflexivity.
Defined.

(** X9. Why a [post_reply] with well-typed arguments of at most 350
    characters can fail, for any repository: [addReply] failed; or it
    returned [false], which is reported as "Review not found" without
    consulting [findById]; or [findById] failed after the reply was added;
    or the review read back is absent or has no [replyData], which is
    reported as [InternalError] although [addReply] has returned [true]. *)
Theorem post_reply_failure_causes
        (repo : ReviewsRepository) (rid msg : string) (st st' : Store)
        (e : Error) :
  (String.length msg <= 350)%nat ->
  handlePostReply repo
    {| PostReplyArgs.reviewId := Js.Str rid;
       PostReplyArgs.replyText := Js.Str msg |} st
  = (Err e, st') ->
  addReply repo rid msg st = (Err e, st')
  \/ (addReply repo rid msg st = (Ok false, st')
      /\ e = McpError InvalidRequest ("Review not found: " ++ rid))
  \/ (exists st1,
         addReply repo rid msg st = (Ok true, st1)
         /\ findById repo rid st1 = (Err e, st'))
  \/ (exists st1,
         addReply repo rid msg st = (Ok true, st1)
         /\ e = McpError InternalError "Failed to retrieve reply data"
         /\ (findById repo rid st1 = (Ok None, st')
             \/ exists r, findById repo rid st1 = (Ok (Some r), st')
                          /\ Review.replyData r = None)).
Proof.
  intros Hlen. unfold handlePostReply.
  cbn [PostReplyArgs.reviewId PostReplyArgs.replyText].
  apply Nat.ltb_ge in Hlen. rewrite Hlen. unfold bind.
  destruct (addReply repo rid msg st) as [[[|]|e1] st1] eqn:Ea.
  - cbn [negb].
    destruct (findById repo rid st1) as [[[r|]|e2] st2] eqn:Ef.
    + destruct (Review.replyData r) as [rd|] eqn:Er; [discriminate|].
      unfold throw. intros H. injection H as <- <-.
      right; right; right. exists st1. repeat split.
      right. exists r. now split.
    + unfold throw. intros H. injection H as <- <-.
      right; right; right. exists st1. repeat split. now left.
    + intros H. injection H as <- <-.
      right; right; left. exists st1. now split.
  - cbn [negb]. unfold throw. intros H. injection H as <- <-.
    right; left. now split.
  - intros H. injection H as <- <-. now left.
Qed.

Lemma post_reply_failure_causes_witness :
  addReply (SpecRepo.reviewsRepository false) "zz" "Thanks" Examples.exampleStore
  = (Ok false, Examples.exampleStore)
  /\ handlePostReply (SpecRepo.reviewsRepository false)
       {| PostReplyArgs.reviewId := Js.Str "zz";
          PostReplyArgs.replyText := Js.Str "Thanks" |} Examples.exampleStore
     = (Err (McpError InvalidRequest "Review not found: zz"),
        Examples.exampleStore).
Proof.
  assert (H : handlePostReply (SpecRepo.reviewsRepository false)
                {| PostReplyArgs.reviewId := Js.Str "zz";
                   PostReplyArgs.replyText := Js.Str "Thanks" |}
                Examples.exampleStore
              = (Err (McpError InvalidRequest "Review not found: zz"),
                 Examples.exampleStore)) by reflexivity.
  split; [|exact H].
  destruct (post_reply_failure_causes
              (SpecRepo.reviewsRepository false) "zz" "Thanks"
              Examples.exampleStore Examples.exampleStore _
              ltac:(vm_compute; repeat constructor) H)
    as [Hc|[[Hc _]|[[s1 [Hc _]]|[s1 [Hc _]]]]];
    try discriminate Hc; exact Hc.
Defined.

(* ------------------------------------------------------------------ *)
(** ** [search_reviews]: paging and the forms of its arguments *)

Lemma slice_length_nonneg {A} (l : list A) (a n : Z) :
  0 <= a -> 0 <= n ->
  Z.of_nat (List.length (Js.slice l a (a + n)))
  = Z.min n (Z.max (Z.of_nat (List.length l) - a) 0).
Proof.
  intros Ha Hn. unfold Js.slice.
  destruct (Z.ltb_spec a 0); [lia|].
  destruct (Z.ltb_spec (a + n) 0); [lia|].
  rewrite length_firstn, length_skipn. lia.
Qed.

Lemma slice_negative_stop {A} (l : list A) (n : Z) :
  n < 0 ->
  Js.slice l 0 (0 + n) = firstn (List.length l - Z.to_nat (- n)) l.
Proof.
  intros Hn. unfold Js.slice.
  change (0 <? 0) with false. cbv iota.
  destruct (Z.ltb_spec (0 + n) 0); [|lia].
  rewrite (Z.min_l 0) by lia.
  change (Z.to_nat 0) with 0%nat. simpl skipn.
  f_equal. lia.
Qed.

(** What a successful search response is made of. *)
Lemma search_response_inv
      (repo : ReviewsRepository) (args : SearchReviewsArgs.t)
      (st st' : Store) (resp : ReviewsResponse) :
  handleSearchReviews repo args st = (Ok resp, st') ->
  exists q batch,
    SearchReviewsArgs.query args = Js.Str q
    /\ find repo (searchBatchFilter args) st = (Ok batch, st')
    /\ reviews resp
       = Js.slice (List.filter (combinedFilter args (Js.toLowerCase q)) batch)
                  (offset (pagination resp))
                  (offset (pagination resp) + limit (pagination resp))
    /\ total (pagination resp)
       = Z.of_nat
           (List.length
              (List.filter (combinedFilter args (Js.toLowerCase q)) batch))
    /\ limit (pagination resp) = Js.orDefault (SearchReviewsArgs.limit args) 20
    /\ offset (pagination resp) = Js.orDefault (SearchReviewsArgs.offset args) 0
    /\ hasMore (pagination resp)
       = (offset (pagination resp) + limit (pagination resp)
          <? total (pagination resp)).
Proof.
  unfold handleSearchReviews.
  destruct (SearchReviewsArgs.query args) as [| | | |q|]; try discriminate.
  unfold bind.
  destruct (find repo (searchBatchFilter args) st) as [[batch|e] st1] eqn:Ef;
    [|discriminate].
  unfold ret. intros H. injection H as <- <-.
  exists q, batch. repeat split; reflexivity.
Qed.

(** X10. In every successful search response with a non-negative offset
    and limit, the number of returned reviews is
    [min limit (max (total - offset) 0)], and [hasMore] holds exactly when
    kept reviews remain beyond the returned page. *)
Theorem search_page_size
        (repo : ReviewsRepository) (args : SearchReviewsArgs.t)
        (st st' : Store) (resp : ReviewsResponse) :
  handleSearchReviews repo args st = (Ok resp, st') ->
  0 <= offset (pagination resp) ->
  0 <= limit (pagination resp) ->
  Z.of_nat (List.length (reviews resp))
  = Z.min (limit (pagination resp))
          (Z.max (total (pagination resp) - offset (pagination resp)) 0)
  /\ (hasMore (pagination resp) = true
      <-> offset (pagination resp) + Z.of_nat (List.length (reviews resp))
          < total (pagination resp)).
Proof.
  intros H Hoff Hlim.
  destruct (search_response_inv _ _ _ _ _ H)
    as [q [batch [_ [_ [Hrev [Htot [_ [_ Hmore]]]]]]]].
  assert (Hlen : Z.of_nat (List.length (reviews resp))
                 = Z.min (limit (pagination resp))
                         (Z.max (total (pagination resp)
                                 - offset (pagination resp)) 0)).
  { rewrite Hrev, slice_length_nonneg by assumption. now rewrite <- Htot. }
  split; [exact Hlen|].
  rewrite Hmore, Z.ltb_lt, Hlen. lia.
Qed.

Lemma search_page_size_witness :
  exists resp,
    handleSearchReviews (SpecRepo.reviewsRepository false)
      {| SearchReviewsArgs.query := Js.Str "crash";
         SearchReviewsArgs.appPackage := Js.Undefined;
         SearchReviewsArgs.filter := None;
         SearchReviewsArgs.limit := Some 100;
         SearchReviewsArgs.offset := Some 950 |} Examples.bigStore
    = (Ok resp, Examples.bigStore)
    /\ Z.of_nat (List.length (reviews resp)) = 50
    /\ hasMore (pagination resp) = false.
Proof.
  eexists. split; [vm_compute; reflexivity|].
  match goal with
  | |- Z.of_nat (List.length (reviews ?r)) = _ /\ _ =>
      assert (H : handleSearchReviews (SpecRepo.reviewsRepository false)
                    {| SearchReviewsArgs.query := Js.Str "crash";
                       SearchReviewsArgs.appPackage := Js.Undefined;
                       SearchReviewsArgs.filter := None;
                       SearchReviewsArgs.limit := Some 100;
                       SearchReviewsArgs.offset := Some 950 |} Examples.bigStore
                  = (Ok r, Examples.bigStore)) by (vm_compute; reflexivity)
  end.
  destruct (search_page_size _ _ _ _ _ H) as [Hlen _];
    [cbn [pagination offset]; lia | cbn [pagination limit]; lia |].
  split; [exact Hlen | reflexivity].
Defined.

(** X11. A negative [limit] is not rejected.  With offset 0 the search
    then returns all kept reviews but the last [-limit] of them, echoes
    the negative limit and always reports [hasMore]. *)
Theorem search_negative_limit_drops_tail
        (repo : ReviewsRepository) (args : SearchReviewsArgs.t)
        (st st' : Store) (q : string) (batch : list Review.t) (l : Z) :
  SearchReviewsArgs.query args = Js.Str q ->
  find repo (searchBatchFilter args) st = (Ok batch, st') ->
  Js.orDefault (SearchReviewsArgs.offset args) 0 = 0 ->
  SearchReviewsArgs.limit args = Some l ->
  l < 0 ->
  exists resp,
    handleSearchReviews repo args st = (Ok resp, st')
    /\ reviews resp
       = firstn (List.length
                   (List.filter (combinedFilter args (Js.toLowerCase q)) batch)
                 - Z.to_nat (- l))
                (List.filter (combinedFilter args (Js.toLowerCase q)) batch)
    /\ limit (pagination resp) = l
    /\ hasMore (pagination resp) = true.
Proof.
  intros Hq Hf Hoff Hl Hneg.
  unfold handleSearchReviews. rewrite Hq. unfold bind. rewrite Hf.
  unfold ret. eexists. split; [reflexivity|].
  cbn [reviews pagination limit hasMore].
  rewrite Hoff, Hl.
  assert (El : Js.orDefault (Some l) 20 = l).
  { unfold Js.orDefault. destruct (Z.eqb_spec l 0); [lia | reflexivity]. }
  rewrite El. split; [now apply slice_negative_stop|].
  split; [reflexivity|]. apply Z.ltb_lt. lia.
Qed.

Lemma search_negative_limit_drops_tail_witness :
  exists resp,
    handleSearchReviews (SpecRepo.reviewsRepository false)
      {| SearchReviewsArgs.query := Js.Str "o";
         SearchReviewsArgs.appPackage := Js.Undefined;
         SearchReviewsArgs.filter := None;
         SearchReviewsArgs.limit := Some (-1);
         SearchReviewsArgs.offset := None |} Examples.exampleStore
    = (Ok resp, Examples.exampleStore)
    /\ List.map Review.id (reviews resp) = ["r1"; "r2"]
    /\ total (pagination resp) = 3
    /\ hasMore (pagination resp) = true.
Proof.
  destruct (search_negative_limit_drops_tail
              (SpecRepo.reviewsRepository false)
              {| SearchReviewsArgs.query := Js.Str "o";
                 SearchReviewsArgs.appPackage := Js.Undefined;
                 SearchReviewsArgs.filter := None;
                 SearchReviewsArgs.limit := Some (-1);
                 SearchReviewsArgs.offset := None |}
              Examples.exampleStore Examples.exampleStore "o" _ (-1)
              eq_refl eq_refl eq_refl eq_refl ltac:(lia))
    as [resp [H [Hrev [_ Hmore]]]].
  exists resp. split; [exact H|].
  split; [rewrite Hrev; reflexivity|].
  split; [|exact Hmore].
  vm_compute in H. injection H as <-. reflexivity.
Defined.

Lemma includes_empty (s : string) : Js.includes s "" = true.
Proof. destruct s; reflexivity. Qed.

Lemma filter_all {A} (f : A -> bool) (l : list A) :
  (forall x, f x = true) -> List.filter f l = l.
Proof.
  intros H. induction l as [|x l IH]; simpl; [reflexivity|].
  now rewrite H, IH.
Qed.

Lemma filter_none {A} (f : A -> bool) (l : list A) :
  (forall x, f x = false) -> List.filter f l = [].
Proof.
  intros H. induction l as [|x l IH]; simpl; [reflexivity|].
  now rewrite H, IH.
Qed.

(** X12. An empty [query] excludes nothing: every review that [find]
    returns and that belongs to the requested app (when one is given) is
    kept and counted. *)
Theorem search_empty_query_keeps_all
        (repo : ReviewsRepository) (args : SearchReviewsArgs.t)
        (st st' : Store) (batch : list Review.t) :
  SearchReviewsArgs.query args = Js.Str "" ->
  find repo (searchBatchFilter args) st = (Ok batch, st') ->
  exists resp,
    handleSearchReviews repo args st = (Ok resp, st')
    /\ total (pagination resp)
       = Z.of_nat (List.length (List.filter (appPackageFilter args) batch))
    /\ (Js.truthy (SearchReviewsArgs.appPackage args) = false ->
        total (pagination resp) = Z.of_nat (List.length batch)).
Proof.
  intros Hq Hf.
  unfold handleSearchReviews. rewrite Hq. unfold bind. rewrite Hf.
  unfold ret. eexists. split; [reflexivity|].
  cbn [pagination total].
  assert (E : List.filter (combinedFilter args (Js.toLowerCase "")) batch
              = List.filter (appPackageFilter args) batch).
  { apply filter_ext. intros r. unfold combinedFilter, queryFilter.
    change (Js.toLowerCase "") with "".
    rewrite includes_empty. simpl. apply andb_true_r. }
  rewrite E. split; [reflexivity|].
  intros Hap. rewrite filter_all; [reflexivity|].
  intros r. unfold appPackageFilter. now rewrite Hap.
Qed.

Lemma search_empty_query_keeps_all_witness :
  exists resp,
    handleSearchReviews (SpecRepo.reviewsRepository false)
                        (Examples.search "") Examples.twoAppStore
    = (Ok resp, Examples.twoAppStore)
    /\ total (pagination resp) = 3.
Proof.
  destruct (search_empty_query_keeps_all
              (SpecRepo.reviewsRepository false) (Examples.search "")
              Examples.twoAppStore Examples.twoAppStore _ eq_refl eq_refl)
    as [resp [H [_ Htot]]].
  exists resp. split; [exact H|].
  rewrite (Htot eq_refl). reflexivity.
Defined.

(** X13. The search depends on the query only through its lower-casing:
    two queries that differ in case alone give the same response. *)
Theorem search_query_case_irrelevant
        (repo : ReviewsRepository) (q q' : string) (ap : Js.value)
        (payload : option ReviewFilter.t) (l o : option Z) (st : Store) :
  Js.toLowerCase q = Js.toLowerCase q' ->
  handleSearchReviews repo
    {| SearchReviewsArgs.query := Js.Str q;
       SearchReviewsArgs.appPackage := ap;
       SearchReviewsArgs.filter := payload;
       SearchReviewsArgs.limit := l;
       SearchReviewsArgs.offset := o |} st
  = handleSearchReviews repo
      {| SearchReviewsArgs.query := Js.Str q';
         SearchReviewsArgs.appPackage := ap;
         SearchReviewsArgs.filter := payload;
         SearchReviewsArgs.limit := l;
         SearchReviewsArgs.offset := o |} st.
Proof.
  intros H. unfold handleSearchReviews.
  cbn [SearchReviewsArgs.query]. rewrite H. reflexivity.
Qed.

Lemma search_query_case_irrelevant_witness :
  handleSearchReviews (SpecRepo.reviewsRepository false)
    {| SearchReviewsArgs.query := Js.Str "CRASH";
       SearchReviewsArgs.appPackage := Js.Str "com.example.app";
       SearchReviewsArgs.filter := None;
       SearchReviewsArgs.limit := None;
       SearchReviewsArgs.offset := None |} Examples.exampleStore
  = handleSearchReviews (SpecRepo.reviewsRepository false)
      {| SearchReviewsArgs.query := Js.Str "crash";
         SearchReviewsArgs.appPackage := Js.Str "com.example.app";
         SearchReviewsArgs.filter := None;
         SearchReviewsArgs.limit := None;
         SearchReviewsArgs.offset := None |} Examples.exampleStore.
Proof.
  apply (search_query_case_irrelevant
           (SpecRepo.reviewsRepository false) "CRASH" "crash"
           (Js.Str "com.example.app") None None None Examples.exampleStore).
  reflexivity.
Defined.

(** X14. The [appPackage] of a search is tested for truthiness only, never
    for its type.  A falsy one (absent, [null], the empty string, 0,
    [false]) restricts nothing; a truthy one that is not a string matches
    no review, so the search succeeds with an empty result where
    [get_reviews] would answer [InvalidParams]. *)
Theorem search_appPackage_by_truthiness
        (repo : ReviewsRepository) (args : SearchReviewsArgs.t)
        (st st' : Store) (q : string) (batch : list Review.t) :
  SearchReviewsArgs.query args = Js.Str q ->
  find repo (searchBatchFilter args) st = (Ok batch, st') ->
  exists resp,
    handleSearchReviews repo args st = (Ok resp, st')
    /\ (Js.truthy (SearchReviewsArgs.appPackage args) = false ->
        total (pagination resp)
        = Z.of_nat
            (List.length (List.filter (queryFilter (Js.toLowerCase q)) batch)))
    /\ (Js.truthy (SearchReviewsArgs.appPackage args) = true ->
        (forall s, SearchReviewsArgs.appPackage args <> Js.Str s) ->
        reviews resp = [] /\ total (pagination resp) = 0).
Proof.
  intros Hq Hf.
  unfold handleSearchReviews. rewrite Hq. unfold bind. rewrite Hf.
  unfold ret. eexists. split; [reflexivity|].
  cbn [reviews pagination total]. split.
  - intros Hap. do 2 f_equal. apply filter_ext. intros r.
    unfold combinedFilter, appPackageFilter. now rewrite Hap.
  - intros Hap Hns.
    rewrite filter_none.
    + split; [|reflexivity].
      unfold Js.slice. rewrite skipn_nil. apply firstn_nil.
    + intros r. unfold combinedFilter, appPackageFilter. rewrite Hap.
      destruct (SearchReviewsArgs.appPackage args); try reflexivity.
      now elim (Hns s).
Qed.

Lemma search_appPackage_by_truthiness_witness :
  exists resp,
    handleSearchReviews (SpecRepo.reviewsRepository false)
      {| SearchReviewsArgs.query := Js.Str "crash";
         SearchReviewsArgs.appPackage := Js.Num 7;
         SearchReviewsArgs.filter := None;
         SearchReviewsArgs.limit := None;
         SearchReviewsArgs.offset := None |} Examples.exampleStore
    = (Ok resp, Examples.exampleStore)
    /\ reviews resp = [] /\ total (pagination resp) = 0.
Proof.
  destruct (search_appPackage_by_truthiness
              (SpecRepo.reviewsRepository false)
              {| SearchReviewsArgs.query := Js.Str "crash";
                 SearchReviewsArgs.appPackage := Js.Num 7;
                 SearchReviewsArgs.filter := None;
                 SearchReviewsArgs.limit := None;
                 SearchReviewsArgs.offset := None |}
              Examples.exampleStore Examples.exampleStore "crash" _
              eq_refl eq_refl)
    as [resp [H [_ Hnone]]].
  exists resp. split; [exact H|].
  apply Hnone; [reflexivity|]. intros s Hs. discriminate Hs.
Defined.

(** X15. [search_reviews] takes its page from the top-level [limit] and
    [offset] only: a [limit] or [offset] inside the [filter] payload never
    reaches [find], which is always asked for [limit: 1000, offset: 0], and
    changes nothing in the response. *)
Theorem search_ignores_payload_page
        (repo : ReviewsRepository) (qv ap : Js.value) (f : ReviewFilter.t)
        (pl po l o : option Z) (st : Store) :
  ReviewFilter.limit
    (searchBatchFilter
       {| SearchReviewsArgs.query := qv;
          SearchReviewsArgs.appPackage := ap;
          SearchReviewsArgs.filter := Some (ReviewFilter.withPage pl po f);
          SearchReviewsArgs.limit := l;
          SearchReviewsArgs.offset := o |}) = Some 1000
  /\ ReviewFilter.offset
       (searchBatchFilter
          {| SearchReviewsArgs.query := qv;
             SearchReviewsArgs.appPackage := ap;
             SearchReviewsArgs.filter := Some (ReviewFilter.withPage pl po f);
             SearchReviewsArgs.limit := l;
             SearchReviewsArgs.offset := o |}) = Some 0
  /\ handleSearchReviews repo
       {| SearchReviewsArgs.query := qv;
          SearchReviewsArgs.appPackage := ap;
          SearchReviewsArgs.filter := Some (ReviewFilter.withPage pl po f);
          SearchReviewsArgs.limit := l;
          SearchReviewsArgs.offset := o |} st
     = handleSearchReviews repo
         {| SearchReviewsArgs.query := qv;
            SearchReviewsArgs.appPackage := ap;
            SearchReviewsArgs.filter := Some f;
            SearchReviewsArgs.limit := l;
            SearchReviewsArgs.offset := o |} st.
Proof.
  split; [reflexivity|]. split; [reflexivity|].
  unfold handleSearchReviews. cbn [SearchReviewsArgs.query].
  destruct qv; reflexivity.
Qed.

(* ------------------------------------------------------------------ *)
(** ** Start-up *)

(** X16. [run] ends the process with exit code 1 exactly when one of the
    two repository initialisations or the connection of the transport
    fails; the transport is connected only after both initialisations
    have succeeded, and the apps repository is initialised only after the
    reviews repository has been. *)
Theorem run_exits_iff_startup_fails (reviewsInitOk appsInitOk connectOk : bool) :
  (In (ProcessExit 1) (run reviewsInitOk appsInitOk connectOk)
   <-> reviewsInitOk && appsInitOk && connectOk = false)
  /\ (In ConnectTransport (run reviewsInitOk appsInitOk connectOk)
      <-> reviewsInitOk && appsInitOk = true)
  /\ (In InitApps (run reviewsInitOk appsInitOk connectOk)
      <-> reviewsInitOk = true)
  /\ forall code, In (ProcessExit code) (run reviewsInitOk appsInitOk connectOk)
                  -> code = 1.
Proof.
  destruct reviewsInitOk, appsInitOk, connectOk; cbv [run initialize app];
    simpl; (repeat split); intros; try discriminate; try tauto;
    repeat match goal with
           | H : _ \/ _ |- _ => destruct H
           | H : False |- _ => contradiction
           | H : _ = _ |- _ => try discriminate H; injection H as H
           end; auto.
Qed.

(* ------------------------------------------------------------------ *)
(** ** Further properties of the dispatchers and of defaulting *)

(** X17. An explicit 0 is indistinguishable from an absent value: a
    [get_reviews] payload with [limit: 0] or [offset: 0], and a
    [search_reviews] call with [limit: 0] or [offset: 0], give the very
    outcome of the same request without that field, and [limit: 20] gives
    that of an absent limit. *)
Theorem zero_page_fields_like_absent
        (repo : ReviewsRepository) (st : Store) :
  (forall p f o,
      handleGetReviews repo
        {| GetReviewsArgs.appPackage := p;
           GetReviewsArgs.filter := Some (ReviewFilter.withPage (Some 0) o f) |} st
      = handleGetReviews repo
          {| GetReviewsArgs.appPackage := p;
             GetReviewsArgs.filter := Some (ReviewFilter.withPage None o f) |} st)
  /\ (forall p f l,
         handleGetReviews repo
           {| GetReviewsArgs.appPackage := p;
              GetReviewsArgs.filter := Some (ReviewFilter.withPage l (Some 0) f) |} st
         = handleGetReviews repo
             {| GetReviewsArgs.appPackage := p;
                GetReviewsArgs.filter := Some (ReviewFilter.withPage l None f) |} st)
  /\ (forall p f o,
         handleGetReviews repo
           {| GetReviewsArgs.appPackage := p;
              GetReviewsArgs.filter := Some (ReviewFilter.withPage (Some 20) o f) |} st
         = handleGetReviews repo
             {| GetReviewsArgs.appPackage := p;
                GetReviewsArgs.filter := Some (ReviewFilter.withPage None o f) |} st)
  /\ (forall q ap payload o,
         handleSearchReviews repo
           {| SearchReviewsArgs.query := q;
              SearchReviewsArgs.appPackage := ap;
              SearchReviewsArgs.filter := payload;
              SearchReviewsArgs.limit := Some 0;
              SearchReviewsArgs.offset := o |} st
         = handleSearchReviews repo
             {| SearchReviewsArgs.query := q;
                SearchReviewsArgs.appPackage := ap;
                SearchReviewsArgs.filter := payload;
                SearchReviewsArgs.limit := None;
                SearchReviewsArgs.offset := o |} st)
  /\ (forall q ap payload l,
         handleSearchReviews repo
           {| SearchReviewsArgs.query := q;
              SearchReviewsArgs.appPackage := ap;
              SearchReviewsArgs.filter := payload;
              SearchReviewsArgs.limit := l;
              SearchReviewsArgs.offset := Some 0 |} st
         = handleSearchReviews repo
             {| SearchReviewsArgs.query := q;
                SearchReviewsArgs.appPackage := ap;
                SearchReviewsArgs.filter := payload;
                SearchReviewsArgs.limit := l;
                SearchReviewsArgs.offset := None |} st).
Proof.
  repeat split; intros; try reflexivity;
    (destruct p; try reflexivity;
     unfold handleGetReviews, getReviewsFilter, spreadOverAppPackage; simpl;
     destruct (ReviewFilter.appPackage f); reflexivity).
Qed.

(** X18. A resource read that succeeds on a template echoes a URI rebuilt
    from the _decoded_ segments, without encoding them again: the echoed
    URI is the requested one exactly when decoding left the segment as it
    was. *)
Theorem read_resource_echoes_decoded_uri
        (repo : ReviewsRepository) (apps : AppsRepository)
        (decode : string -> option string) (P P' : string) (st st' : Store)
        (r : ResourceResult) :
  Segment P -> decode P = Some P' ->
  readResource repo apps decode ("googleplay://reviews/" ++ P) st
  = (Resolved r, st') ->
  exists c,
    r = AppReviewsContents c
    /\ uri c = "googleplay://reviews/" ++ P'
    /\ mimeType c = "application/json"
    /\ (uri c = "googleplay://reviews/" ++ P <-> P' = P).
Proof.
  intros HP Hd.
  rewrite (read_resource_app_reviews_route repo apps decode P P' HP Hd). unfold settle, handleAppReviewsResource, bind, ret.
  destruct (find repo _ st) as [[rs|e] st1]; [|discriminate].
  intros H. injection H as <- <-.
  eexists. split; [reflexivity|]. cbn [uri mimeType].
  split; [reflexivity|]. split; [reflexivity|].
  split; intros H;
    [exact (append_cancel_l "googleplay://reviews/" P' P H) | now subst].
Qed.

Lemma read_resource_echoes_decoded_uri_witness :
  exists c,
    readResource (SpecRepo.reviewsRepository false) SpecRepo.appsRepository
                 decodeUnescaped "googleplay://reviews/com.beta"
                 Examples.twoAppStore
    = (Resolved (AppReviewsContents c), Examples.twoAppStore)
    /\ uri c = "googleplay://reviews/com.beta".
Proof.
  assert (S : Segment "com.beta") by (apply isSegment_iff; reflexivity).
  destruct (read_resource_echoes_decoded_uri
              (SpecRepo.reviewsRepository false) SpecRepo.appsRepository
              decodeUnescaped "com.beta" "com.beta"
              Examples.twoAppStore Examples.twoAppStore _ S eq_refl eq_refl)
    as [c [Hr [Hu _]]].
  exists c. split; [now rewrite <- Hr | exact Hu].
Defined.

(** X19. The dispatcher hands on what the chosen handler produces: a
    rejection of a handler reaches the caller as it is, also when it is
    not an [McpError]; it is never replaced by the [InternalError] of the
    dispatcher's [catch], and the store is the one the handler left. *)
Theorem call_tool_passes_rejections_unchanged
        (repo : ReviewsRepository) (a : ToolArgs.t) (st st' : Store) (e : Error) :
  (handleGetReviews repo (ToolArgs.forGetReviews a) st = (Err e, st') ->
   callTool repo "get_reviews" (Some a) st = (Rejected e, st'))
  /\ (handlePostReply repo (ToolArgs.forPostReply a) st = (Err e, st') ->
      callTool repo "post_reply" (Some a) st = (Rejected e, st'))
  /\ (handleSearchReviews repo (ToolArgs.forSearchReviews a) st = (Err e, st') ->
      callTool repo "search_reviews" (Some a) st = (Rejected e, st')).
Proof.
  repeat split; intros H; unfold callTool; simpl; unfold settle; now rewrite H.
Qed.

Lemma call_tool_passes_rejections_unchanged_witness :
  callTool (SpecRepo.reviewsRepository true) "search_reviews"
    (Some {| ToolArgs.appPackage := Js.Undefined;
             ToolArgs.filter := None;
             ToolArgs.reviewId := Js.Undefined;
             ToolArgs.replyText := Js.Undefined;
             ToolArgs.query := Js.Str "crash";
             ToolArgs.limit := None;
             ToolArgs.offset := None |}) Examples.exampleStore
  = (Rejected (RepositoryError InvalidArgument), Examples.exampleStore).
Proof.
  apply (proj2 (proj2 (call_tool_passes_rejections_unchanged
                         (SpecRepo.reviewsRepository true) _
                         Examples.exampleStore Examples.exampleStore
                         (RepositoryError InvalidArgument)))).
  reflexivity.
Defined.

(* ------------------------------------------------------------------ *)
(** ** A matching review that no search returns *)

(** The fields of the payload other than the page reach [find] as they
    are. *)
Lemma searchBatchFilter_payload (args : SearchReviewsArgs.t) (f : ReviewFilter.t) :
  SearchReviewsArgs.filter args = Some f ->
  searchBatchFilter args = ReviewFilter.withPage (Some 1000) (Some 0) f.
Proof. intros H. unfold searchBatchFilter. now rewrite H. Qed.

Lemma bigStore_batch_kept :
  List.length
    (List.filter
       (combinedFilter (Examples.search "crash") (Js.toLowerCase "crash"))
       (SpecRepo.window 0 1000
          (SpecRepo.matching (searchBatchFilter (Examples.search "crash"))
                             Examples.bigStore))) = 1000%nat.
Proof. vm_compute. reflexivity. Qed.

Lemma bigStore_batch_without_r999 :
  existsb (fun r => String.eqb (Review.id r) "r999")
          (SpecRepo.window 0 1000
             (SpecRepo.matching (searchBatchFilter (Examples.search "crash"))
                                Examples.bigStore)) = false.
Proof. vm_compute. reflexivity. Qed.

(** C8.  A review should be in the search result exactly when it passes
    the other filters and the query occurs in its text or title, case
    ignored.  In the store of 1001 reviews with the text [crash], the
    review [r999] is in the store, passes the filters of the request and
    contains the query [crash], yet no page of the search holds it,
    whatever [limit] and [offset] are: [find] is asked for 1000 reviews
    and [r999], the last in the order of [find], is not among them. *)
Theorem search_misses_match_beyond_batch :
  In (Examples.review "r999" "com.example.app" 1 "crash")
     (allReviews Examples.bigStore)
  /\ SpecRepo.matches (Examples.review "r999" "com.example.app" 1 "crash")
                      (searchBatchFilter (Examples.search "crash")) = true
  /\ containsIgnoreCase
       (Review.text (Examples.review "r999" "com.example.app" 1 "crash")) "crash"
  /\ forall l o,
      match handleSearchReviews (SpecRepo.reviewsRepository false)
              {| SearchReviewsArgs.query := Js.Str "crash";
                 SearchReviewsArgs.appPackage := Js.Undefined;
                 SearchReviewsArgs.filter := None;
                 SearchReviewsArgs.limit := l;
                 SearchReviewsArgs.offset := o |} Examples.bigStore with
      | (Ok resp, _) =>
          total (pagination resp) = 1000
          /\ ~ In (Examples.review "r999" "com.example.app" 1 "crash")
                  (reviews resp)
      | (Err _, _) => False
      end.
Proof.
  split.
  { unfold Examples.bigStore, Examples.storeOf. cbn [allReviews].
    apply in_map_iff. exists 999%nat. split; [reflexivity|].
    apply in_seq. lia. }
  split; [reflexivity|].
  split; [now exists "", ""|].
  intros l o.
  assert (EF : searchBatchFilter
                 {| SearchReviewsArgs.query := Js.Str "crash";
                    SearchReviewsArgs.appPackage := Js.Undefined;
                    SearchReviewsArgs.filter := None;
                    SearchReviewsArgs.limit := l;
                    SearchReviewsArgs.offset := o |}
               = searchBatchFilter (Examples.search "crash")) by reflexivity.
  assert (EC : combinedFilter
                 {| SearchReviewsArgs.query := Js.Str "crash";
                    SearchReviewsArgs.appPackage := Js.Undefined;
                    SearchReviewsArgs.filter := None;
                    SearchReviewsArgs.limit := l;
                    SearchReviewsArgs.offset := o |}
               = combinedFilter (Examples.search "crash")) by reflexivity.
  assert (Efind : find (SpecRepo.reviewsRepository false)
                       (searchBatchFilter (Examples.search "crash"))
                       Examples.bigStore
                  = (Ok (SpecRepo.window 0 1000
                           (SpecRepo.matching
                              (searchBatchFilter (Examples.search "crash"))
                              Examples.bigStore)), Examples.bigStore))
    by reflexivity.
  unfold handleSearchReviews, bind.
  cbv beta iota delta [SearchReviewsArgs.query].
  rewrite EF, EC, Efind. unfold ret.
  cbv beta iota delta [pagination total reviews].
  rewrite bigStore_batch_kept. split; [reflexivity|].
  intros Hin. apply slice_incl in Hin.
  destruct (proj1 (filter_In _ _ _) Hin) as [HinB _]. clear Hin.
  assert (Hex : existsb (fun r => String.eqb (Review.id r) "r999")
                        (SpecRepo.window 0 1000
                           (SpecRepo.matching
                              (searchBatchFilter (Examples.search "crash"))
                              Examples.bigStore)) = true).
  { apply existsb_exists. eexists. split; [exact HinB | reflexivity]. }
  rewrite bigStore_batch_without_r999 in Hex. discriminate.
Qed.
